(** * LifeSOSpy_MQTT: the Translator between the LifeSOS panel driver and MQTT

    A shallow embedding of [lifesospy_mqtt/translator.py].  The [Translator]
    object is a record of mutable fields threaded through a state-and-exception
    monad; the asyncio loop is the part of that state which holds the tasks
    created with [create_task] and the timers scheduled with [call_later]. *)

From Stdlib Require Import ZArith NArith String Ascii List Bool Lia.
From Stdlib.Strings Require Import Byte.
From stdpp Require Import base option gmap strings list.

Local Open Scope string_scope.
Local Open Scope list_scope.
Local Open Scope Z_scope.

(** ** Python values and exceptions *)

(** [lifesospy_mqtt.enums.OnOff].
    Modelled from the spec: the module [lifesospy_mqtt/enums.py] is not among
    the sources; the spec gives the two members, their payload text
    (on / off) and their correspondence with booleans. *)
Inductive OnOff : Type := Off | On.

(** [lifesospy_mqtt.enums.OpenClosed].
    Modelled from the spec: same missing module; the spec gives the payload
    text (open / closed) and that a true is-closed flag reads closed. *)
Inductive OpenClosed : Type := Open | Closed.

(** [lifesospy.enums.DeviceEventCode]: the driver's enum.  Only [Trigger] is
    named by the translator; every other member is [OtherEventCode]. *)
Inductive DeviceEventCode : Type :=
| Trigger
| OtherEventCode (name : string).

(** [lifesospy.enums.BaseUnitState], with the members the translator names. *)
Inductive BaseUnitState : Type :=
| Disarm | Home | Away | Monitor | AwayExitDelay | AwayEntryDelay
| OtherBaseUnitState (name : string).

(** [lifesospy.enums.ContactIDEventQualifier] and [ContactIDEventCategory]. *)
Inductive EventQualifier : Type :=
| Event | Restore | OtherQualifier (name : string).

Inductive EventCategory : Type :=
| Alarm | OtherCategory (name : string).

(** [lifesospy.enums.DeviceType], with the members the translator names. *)
Inductive DeviceType : Type :=
| FloodDetector | FloodDetector2 | MedicalButton | AnalogSensor | AnalogSensor2
| SmokeDetector | PressureSensor | PressureSensor2 | CODetector | CO2Sensor
| CO2Sensor2 | GasDetector | DoorMagnet | VibrationSensor | PIRSensor
| GlassBreakDetector | HumidSensor | HumidSensor2 | TempSensor | TempSensor2
| LightSensor | LightDetector | ACCurrentMeter | ACCurrentMeter2
| ThreePhaseACMeter
| OtherDeviceType (name : string).

(** [lifesospy.enums.OperationMode] and [SwitchNumber] (an IntEnum, kept as
    its number). *)
Inductive OperationMode : Type :=
| ModeDisarm | ModeHome | ModeAway | ModeMonitor.

Definition SwitchNumber : Type := Z.

(** The values handed to [_publish] as [message] and received as property
    values ([Any] in the source). *)
#[warnings="-register-all"]
Inductive pyvalue : Type :=
| VNone
| VBool (b : bool)
| VInt (z : Z)
| VStr (s : string)
| VOnOff (o : OnOff)
| VOpenClosed (o : OpenClosed)
| VDeviceEventCode (c : DeviceEventCode)
| VBaseUnitState (s : BaseUnitState)
| VDeviceType (t : DeviceType)
| VContactIDEventCode (code : Z)
| VCategory (as_dict : list (string * pyvalue))
| VJson (obj : list (string * pyvalue)).

(** The exceptions the modelled code can raise. *)
Inductive exn : Type :=
| AttributeError
| KeyError
| TypeError
| NotImplementedError
| UnicodeDecodeError
| ParserError.

Inductive result (A : Type) : Type :=
| Ok (a : A)
| Raise (e : exn).
Arguments Ok {A} a.
Arguments Raise {A} e.

(** [str(x)] where the text is fixed by Python or by the spec. *)
Definition OnOff_str (o : OnOff) : string :=
  match o with On => "on" | Off => "off" end.

Definition OpenClosed_str (o : OpenClosed) : string :=
  match o with Open => "open" | Closed => "closed" end.

Definition bool_str (b : bool) : string :=
  if b then "True" else "False".

(** [OnOff.parse_value] and [OpenClosed.parse_value] on a boolean.
    Modelled from the spec: a boolean reads on/off, a true is-closed flag
    reads closed. *)
Definition OnOff_parse_value (value : bool) : OnOff :=
  if value then On else Off.

Definition OpenClosed_parse_value (value : bool) : OpenClosed :=
  if value then Closed else Open.

(** [OnOff.value], an IntEnum member's number.
    Modelled from the spec: on is the true state of a switch. *)
Definition OnOff_value (o : OnOff) : Z :=
  match o with Off => 0 | On => 1 end.

(** [bool(n)] of an int. *)
Definition bool_of_int (n : Z) : bool := negb (n =? 0).

(** Truth value of an optional string: [None] and the empty string are false. *)
Definition truthy_str (s : option string) : bool :=
  match s with
  | Some (String _ _) => true
  | _ => false
  end.

(** Truth value of an optional number. *)
Definition truthy_int (n : option Z) : bool :=
  match n with
  | Some z => bool_of_int z
  | None => false
  end.

(** ['{}'.format(x)] of an optional string. *)
Definition fmt_opt (s : option string) : string :=
  match s with Some t => t | None => "None" end.

(** ** Bytes to text: [bytes.decode()], strict UTF-8 *)

Definition byte_in (lo hi : N) (b : byte) : bool :=
  ((lo <=? Byte.to_N b) && (Byte.to_N b <=? hi))%N.

Definition utf8_cont (b : byte) : bool := byte_in 0x80 0xBF b.

(** Second byte of a three-byte sequence: no overlong forms, no surrogates. *)
Definition utf8_second3 (b0 b1 : byte) : bool :=
  if byte_in 0xE0 0xE0 b0 then byte_in 0xA0 0xBF b1
  else if byte_in 0xED 0xED b0 then byte_in 0x80 0x9F b1
  else utf8_cont b1.

(** Second byte of a four-byte sequence: no overlong forms, at most U+10FFFF. *)
Definition utf8_second4 (b0 b1 : byte) : bool :=
  if byte_in 0xF0 0xF0 b0 then byte_in 0x90 0xBF b1
  else if byte_in 0xF1 0xF3 b0 then utf8_cont b1
  else if byte_in 0xF4 0xF4 b0 then byte_in 0x80 0x8F b1
  else false.

Fixpoint utf8_valid (bs : list byte) : bool :=
  match bs with
  | [] => true
  | b0 :: r0 =>
    if byte_in 0x00 0x7F b0 then utf8_valid r0
    else
      match r0 with
      | [] => false
      | b1 :: r1 =>
        if byte_in 0xC2 0xDF b0 then utf8_cont b1 && utf8_valid r1
        else
          match r1 with
          | [] => false
          | b2 :: r2 =>
            if byte_in 0xE0 0xEF b0
            then utf8_second3 b0 b1 && utf8_cont b2 && utf8_valid r2
            else
              match r2 with
              | [] => false
              | b3 :: r3 =>
                utf8_second4 b0 b1 && utf8_cont b2 && utf8_cont b3
                && utf8_valid r3
              end
          end
      end
  end.

(** [data.decode()]: a Python [str] is kept as its UTF-8 bytes. *)
Definition decode (data : list byte) : result string :=
  if utf8_valid data then Ok (string_of_list_byte data)
  else Raise UnicodeDecodeError.

(** ** ['{:06x}'.format(n)] *)

Definition hex_digit (d : Z) : ascii :=
  match String.get (Z.to_nat d) "0123456789abcdef" with
  | Some c => c
  | None => "0"%char
  end.

Fixpoint hex_digits (fuel : nat) (n : Z) (acc : string) : string :=
  match fuel with
  | O => acc
  | S fuel' =>
    let acc' := String (hex_digit (n mod 16)) acc in
    if n / 16 =? 0 then acc' else hex_digits fuel' (n / 16) acc'
  end.

(** Lower-case hexadecimal digits of a natural number. *)
Definition hex (n : Z) : string :=
  hex_digits (S (Z.to_nat (Z.log2 n))) n "".

Fixpoint zeros (k : nat) : string :=
  match k with
  | O => ""
  | S k' => String "0"%char (zeros k')
  end.

(** Width 6, zero fill after the sign, lower-case hexadecimal. *)
Definition format_06x (n : Z) : string :=
  let digits := hex (Z.abs n) in
  let sign := if n <? 0 then "-" else "" in
  sign +:+ zeros (6 - String.length sign - String.length digits)%nat +:+ digits.

(** ** Configuration ([lifesospy_mqtt.config], read-only) *)

Record TranslatorDeviceConfig : Type := {
  dc_topic : option string;
  dc_ha_name : option string;
  dc_auto_reset_interval : option Z
}.

Record TranslatorSwitchConfig : Type := {
  sc_topic : option string;
  sc_ha_name : option string
}.

Record Config : Type := {
  baseunit : string;
  ha_discovery_prefix : option string;
  devices : gmap Z TranslatorDeviceConfig;
  switches : list (Z * TranslatorSwitchConfig)
}.

(** ** Objects of the panel driver *)

(** A [Device]: [is_special] is [isinstance(device, SpecialDevice)];
    [attrs] lists the keys of [as_dict()] with the value [getattr] returns
    for each. *)
Record Device : Type := {
  device_id : Z;
  type : DeviceType;
  is_special : bool;
  attrs : list (string * pyvalue)
}.

(** A [ContactID] event record.  [event_code] is an optional IntEnum member,
    kept as its number. *)
Record ContactID : Type := {
  event_qualifier : EventQualifier;
  event_category : EventCategory;
  event_code : option Z;
  contact_as_dict : list (string * pyvalue)
}.

(** A flag enum of the driver: its members in definition order. *)
Definition FlagEnum : Type := list (string * Z).

(** The driver's property names ([BaseUnit.PROP_*], [Device.PROP_*],
    [SpecialDevice.PROP_*]): each is the attribute's own name. *)
Definition BaseUnit_PROP_STATE : string := "state".
Definition BaseUnit_PROP_IS_CONNECTED : string := "is_connected".
Definition BaseUnit_PROP_ROM_VERSION : string := "rom_version".
Definition BaseUnit_PROP_EXIT_DELAY : string := "exit_delay".
Definition BaseUnit_PROP_ENTRY_DELAY : string := "entry_delay".
Definition BaseUnit_PROP_OPERATION_MODE : string := "operation_mode".

Definition Device_PROP_DEVICE_ID : string := "device_id".
Definition Device_PROP_ZONE : string := "zone".
Definition Device_PROP_TYPE : string := "type".
Definition Device_PROP_CATEGORY : string := "category".
Definition Device_PROP_CHARACTERISTICS : string := "characteristics".
Definition Device_PROP_ENABLE_STATUS : string := "enable_status".
Definition Device_PROP_SWITCHES : string := "switches".
Definition Device_PROP_IS_CLOSED : string := "is_closed".
Definition Device_PROP_RSSI_DB : string := "rssi_db".
Definition Device_PROP_RSSI_BARS : string := "rssi_bars".
Definition SpecialDevice_PROP_CURRENT_READING : string := "current_reading".
Definition SpecialDevice_PROP_SPECIAL_STATUS : string := "special_status".
Definition SpecialDevice_PROP_HIGH_LIMIT : string := "high_limit".
Definition SpecialDevice_PROP_LOW_LIMIT : string := "low_limit".
Definition SpecialDevice_PROP_CONTROL_LIMIT_FIELDS_EXIST : string :=
  "control_limit_fields_exist".
Definition SpecialDevice_PROP_CONTROL_HIGH_LIMIT : string :=
  "control_high_limit".
Definition SpecialDevice_PROP_CONTROL_LOW_LIMIT : string :=
  "control_low_limit".

(** ** Class constants of [Translator] *)

Definition AUTO_RESET_INTERVAL : Z := 30.

Definition HA_AVAILABILITY_TOPIC : string := "availability_topic".
Definition HA_COMMAND_TOPIC : string := "command_topic".
Definition HA_DEVICE_CLASS : string := "device_class".
Definition HA_NAME : string := "name".
Definition HA_PAYLOAD_AVAILABLE : string := "payload_available".
Definition HA_PAYLOAD_NOT_AVAILABLE : string := "payload_not_available".
Definition HA_PAYLOAD_OFF : string := "payload_off".
Definition HA_PAYLOAD_ON : string := "payload_on".
Definition HA_STATE_TOPIC : string := "state_topic".
Definition HA_UNIQUE_ID : string := "unique_id".
Definition HA_UNIT_OF_MEASUREMENT : string := "unit_of_measurement".

Definition HA_DC_DOOR : string := "door".
Definition HA_DC_GAS : string := "gas".
Definition HA_DC_HUMIDITY : string := "humidity".
Definition HA_DC_ILLUMINANCE : string := "illuminance".
Definition HA_DC_MOISTURE : string := "moisture".
Definition HA_DC_MOTION : string := "motion".
Definition HA_DC_SAFETY : string := "safety".
Definition HA_DC_SMOKE : string := "smoke".
Definition HA_DC_TEMPERATURE : string := "temperature".
Definition HA_DC_VIBRATION : string := "vibration".
Definition HA_DC_WINDOW : string := "window".

Definition HA_PLATFORM_BINARY_SENSOR : string := "binary_sensor".
Definition HA_PLATFORM_SENSOR : string := "sensor".
Definition HA_PLATFORM_SWITCH : string := "switch".

Definition HA_UOM_CURRENT : string := "A".
Definition HA_UOM_HUMIDITY : string := "%".
Definition HA_UOM_ILLUMINANCE : string := "Lux".
Definition HA_UOM_TEMPERATURE : string := "°C".

Definition TOPIC_CLEAR_STATUS : string := "clear_status".
Definition TOPIC_DATETIME : string := "datetime".
Definition TOPIC_HASTATE : string := "ha_state".
Definition TOPIC_SET : string := "set".

(** ['{}/{}'.format(a, b)] *)
Definition slash (a b : string) : string := a +:+ "/" +:+ b.

(** ** The asyncio loop's timers and the logger *)

(** A [TimerHandle] returned by [call_later]: [th_id] is the object's
    identity, [th_arg] the device id bound to [_auto_reset]. *)
Record TimerHandle : Type := {
  th_id : nat;
  th_when : Z;
  th_arg : Z;
  th_cancelled : bool
}.

Inductive LogLevel : Type := WARNING | ERROR.

Inductive LogMessage : Type :=
| CannotSetOperationMode (name : option string)
| CannotSetSwitch (switch_number : SwitchNumber) (name : option string)
| DeviceTypeSkipped (t : DeviceType)
| ExceptionWaitingForMessage
| ExceptionProcessingMessage (topic : string) (e : exn).

Record LogRecord : Type := {
  levelname : LogLevel;
  msg : LogMessage
}.

(** The handler a [SubscribeTopic] is bound to, and its [args]. *)
Inductive Handler : Type :=
| on_message_clear_status
| on_message_set_datetime
| on_message_baseunit
| on_message_switch.

Inductive TopicArgs : Type :=
| ArgsNone
| ArgsName (name : string)
| ArgsSwitch (switch_number : SwitchNumber).

Record SubscribeTopic : Type := {
  st_topic : string;
  st_on_message : Handler;
  st_args : TopicArgs
}.

(** An [ApplicationMessage] delivered by the MQTT client. *)
Record ApplicationMessage : Type := {
  am_topic : string;
  am_data : list byte
}.

(** A [PropertyChangedInfo]. *)
Record PropertyChangedInfo : Type := {
  pc_name : string;
  pc_new_value : pyvalue
}.

(** [dict.get] on a dict kept in insertion order. *)
Fixpoint dict_get {V : Type} (d : list (Z * V)) (k : Z) : option V :=
  match d with
  | [] => None
  | (k', v) :: d' => if k' =? k then Some v else dict_get d' k
  end.

(** The value of [message.data] as text:
    [None if not message.data else message.data.decode()]. *)
Definition data_text (data : list byte) : result (option string) :=
  match data with
  | [] => Ok None
  | _ :: _ =>
    match decode data with
    | Ok s => Ok (Some s)
    | Raise e => Raise e
    end
  end.

(** [value & flag] for a Python value: defined on int (and bool, an int). *)
Definition py_and (value : pyvalue) (flag : Z) : result Z :=
  match value with
  | VInt v => Ok (Z.land v flag)
  | VBool b => Ok (Z.land (Z.b2z b) flag)
  | _ => Raise TypeError
  end.

(** [OpenClosed.parse_value(value)] and [OnOff.parse_value(value)] as the
    translator calls them, on any value.
    Modelled from the spec: the spec fixes the result on booleans only; here
    any other value gives [None]. *)
Definition OpenClosed_parse (value : pyvalue) : pyvalue :=
  match value with
  | VBool b => VOpenClosed (OpenClosed_parse_value b)
  | _ => VNone
  end.

Definition OnOff_parse (value : pyvalue) : pyvalue :=
  match value with
  | VBool b => VOnOff (OnOff_parse_value b)
  | _ => VNone
  end.

(** The optional string as a Python value. *)
Definition py_opt_str (s : option string) : pyvalue :=
  match s with Some t => VStr t | None => VNone end.

(** The optional event code as a Python value. *)
Definition py_event_code (c : option Z) : pyvalue :=
  match c with Some z => VContactIDEventCode z | None => VNone end.

(** The device-type branches of [_publish_ha_device_config]: the platform and
    the keys added to the message, or [None] for the final [else]. *)
Definition ha_device_entry (t : DeviceType)
  : option (string * list (string * pyvalue)) :=
  let on_off := [(HA_PAYLOAD_ON, VStr (OnOff_str On));
                 (HA_PAYLOAD_OFF, VStr (OnOff_str Off))] in
  let binary dc := Some (HA_PLATFORM_BINARY_SENSOR,
                         (HA_DEVICE_CLASS, VStr dc) :: on_off) in
  let sensor dc uom := Some (HA_PLATFORM_SENSOR,
                             [(HA_DEVICE_CLASS, VStr dc);
                              (HA_UNIT_OF_MEASUREMENT, VStr uom)]) in
  match t with
  | FloodDetector | FloodDetector2 => binary HA_DC_MOISTURE
  | MedicalButton => binary HA_DC_SAFETY
  | AnalogSensor | AnalogSensor2 => Some (HA_PLATFORM_BINARY_SENSOR, on_off)
  | SmokeDetector => binary HA_DC_SMOKE
  | PressureSensor | PressureSensor2 => binary HA_DC_MOTION
  | CODetector | CO2Sensor | CO2Sensor2 | GasDetector => binary HA_DC_GAS
  | DoorMagnet =>
    Some (HA_PLATFORM_BINARY_SENSOR,
          [(HA_DEVICE_CLASS, VStr HA_DC_DOOR);
           (HA_PAYLOAD_ON, VStr (OpenClosed_str Open));
           (HA_PAYLOAD_OFF, VStr (OpenClosed_str Closed))])
  | VibrationSensor => binary HA_DC_VIBRATION
  | PIRSensor => binary HA_DC_MOTION
  | GlassBreakDetector => binary HA_DC_WINDOW
  | HumidSensor | HumidSensor2 => sensor HA_DC_HUMIDITY HA_UOM_HUMIDITY
  | TempSensor | TempSensor2 => sensor HA_DC_TEMPERATURE HA_UOM_TEMPERATURE
  | LightSensor | LightDetector => sensor HA_DC_ILLUMINANCE HA_UOM_ILLUMINANCE
  | ACCurrentMeter | ACCurrentMeter2 | ThreePhaseACMeter =>
    Some (HA_PLATFORM_SENSOR, [(HA_UNIT_OF_MEASUREMENT, VStr HA_UOM_CURRENT)])
  | OtherDeviceType _ => None
  end.

(** What the environment hands to one turn of [async_loop]: whether SIGINT
    arrived during the turn, and how [deliver_message(timeout=1)] ended. *)
Inductive Delivery : Type :=
| TimeoutError
| DeliverException
| Delivered (message : ApplicationMessage).

Record Turn : Type := {
  sigint : bool;
  outcome : Delivery
}.

(** ** A sample installation

    One door magnet and one switch behind a base unit, with discovery on;
    the name parsers resolve the exact member names. *)

Definition sample_door : Device :=
  {| device_id := 0x12ab34; type := DoorMagnet; is_special := false;
     attrs := [("is_closed", VBool true); ("characteristics", VInt 5)] |}.

Definition sample_remote : Device :=
  {| device_id := 0x00beef; type := OtherDeviceType "RemoteController";
     is_special := false; attrs := [] |}.

Definition sample_config : Config :=
  {| baseunit := "lifesos";
     ha_discovery_prefix := Some "homeassistant";
     devices := {[ 0x12ab34 := {| dc_topic := Some "lifesos/door";
                                  dc_ha_name := Some "Door";
                                  dc_auto_reset_interval := Some 10 |} ]};
     switches := [(1, {| sc_topic := Some "lifesos/sw1";
                         sc_ha_name := Some "Lamp" |})] |}.

Definition sample_flags : FlagEnum := [("A", 1); ("B", 2); ("C", 4)].

Definition sample_parse_mode (name : option string) : option OperationMode :=
  match name with
  | Some n =>
    if String.eqb n "Disarm" then Some ModeDisarm
    else if String.eqb n "Home" then Some ModeHome
    else if String.eqb n "Away" then Some ModeAway
    else if String.eqb n "Monitor" then Some ModeMonitor
    else None
  | None => None
  end.

Definition sample_parse_onoff (name : option string) : option OnOff :=
  match name with
  | Some n =>
    if String.eqb n "on" then Some On
    else if String.eqb n "off" then Some Off
    else None
  | None => None
  end.

(** ** The translator *)

Section Translator.

(** What the translator takes from outside this repository's sources: the
    date-time type of [dateutil], the name parsers of the enums, the driver's
    four flag enums, and [const.PROJECT_NAME]. *)
Variable datetime : Type.
Variable OperationMode_parse_name : option string -> option OperationMode.
Variable OnOff_parse_name : option string -> option OnOff.
Variables DCFlags ESFlags SwitchFlags SSFlags : FlagEnum.
Variable PROJECT_NAME : string.

(** [self._config.translator], read-only. *)
Variable config : Config.

(** The argument of [async_set_datetime]: the parsed date-time, or the value
    left as it was when it is false ([None] asks for the current time). *)
Inductive DatetimeValue : Type :=
| Parsed (d : datetime)
| Unparsed (value : option string).

(** The coroutines handed to [loop.create_task]. *)
Inductive Task : Type :=
| async_publish (topic : string) (message : pyvalue) (retain : bool)
| async_set_operation_mode (operation_mode : OperationMode)
| async_clear_status
| async_set_datetime (value : DatetimeValue)
| async_set_switch_state (switch_number : SwitchNumber) (state : bool).

(** Calls on the panel driver, as opposed to MQTT publications. *)
Definition is_driver_call (t : Task) : bool :=
  match t with
  | async_publish _ _ _ => false
  | _ => true
  end.

(** The mutable state: the translator's fields, the loop's tasks (in creation
    order), clock and timers, the log, and the devices whose callbacks point
    at the translator. *)
Record Translator : Type := {
  tasks : list Task;
  records : list LogRecord;
  now : Z;
  scheduled : list TimerHandle;
  next_handle : nat;
  _auto_reset_handles : gmap Z nat;
  _shutdown : bool;
  callbacks : gset Z
}.

Definition M (A : Type) : Type := Translator -> Translator * result A.

#[local] Instance M_ret : MRet M := fun A a s => (s, Ok a).

#[local] Instance M_bind : MBind M := fun A B f m s =>
  match m s with
  | (s', Ok a) => f a s'
  | (s', Raise e) => (s', Raise e)
  end.

Definition raise {A : Type} (e : exn) : M A := fun s => (s, Raise e).

Definition lift {A : Type} (r : result A) : M A := fun s => (s, r).

(** [try: m except Exception: h] *)
Definition try_except {A : Type} (m : M A) (h : exn -> M A) : M A := fun s =>
  match m s with
  | (s', Ok a) => (s', Ok a)
  | (s', Raise e) => h e s'
  end.

Fixpoint for_each {A : Type} (f : A -> M unit) (l : list A) : M unit :=
  match l with
  | [] => mret tt
  | x :: l' => f x;; for_each f l'
  end.

Definition create_task (t : Task) : M unit := fun s =>
  ({| tasks := tasks s ++ [t]; records := records s; now := now s;
      scheduled := scheduled s; next_handle := next_handle s;
      _auto_reset_handles := _auto_reset_handles s;
      _shutdown := _shutdown s; callbacks := callbacks s |}, Ok tt).

Definition log (l : LogLevel) (m : LogMessage) : M unit := fun s =>
  ({| tasks := tasks s;
      records := records s ++ [{| levelname := l; msg := m |}];
      now := now s; scheduled := scheduled s; next_handle := next_handle s;
      _auto_reset_handles := _auto_reset_handles s;
      _shutdown := _shutdown s; callbacks := callbacks s |}, Ok tt).

(** [loop.call_later(delay, self._auto_reset, arg)] *)
Definition call_later (delay : Z) (arg : Z) : M nat := fun s =>
  let h := {| th_id := next_handle s; th_when := now s + delay;
              th_arg := arg; th_cancelled := false |} in
  ({| tasks := tasks s; records := records s; now := now s;
      scheduled := scheduled s ++ [h]; next_handle := S (next_handle s);
      _auto_reset_handles := _auto_reset_handles s;
      _shutdown := _shutdown s; callbacks := callbacks s |},
   Ok (next_handle s)).

Definition cancel_timer (h : nat) (t : TimerHandle) : TimerHandle :=
  if Nat.eqb (th_id t) h
  then {| th_id := th_id t; th_when := th_when t; th_arg := th_arg t;
          th_cancelled := true |}
  else t.

(** [handle.cancel()] *)
Definition cancel (h : nat) : M unit := fun s =>
  ({| tasks := tasks s; records := records s; now := now s;
      scheduled := map (cancel_timer h) (scheduled s);
      next_handle := next_handle s;
      _auto_reset_handles := _auto_reset_handles s;
      _shutdown := _shutdown s; callbacks := callbacks s |}, Ok tt).

Definition set_handles (m : gmap Z nat) : M unit := fun s =>
  ({| tasks := tasks s; records := records s; now := now s;
      scheduled := scheduled s; next_handle := next_handle s;
      _auto_reset_handles := m;
      _shutdown := _shutdown s; callbacks := callbacks s |}, Ok tt).

Definition get_handles : M (gmap Z nat) := fun s =>
  (s, Ok (_auto_reset_handles s)).

(** [self._auto_reset_handles.pop(key)]: raises when the key is absent. *)
Definition pop_handle (key : Z) : M nat :=
  handles ← get_handles;
  match handles !! key with
  | Some h => set_handles (delete key handles);; mret h
  | None => raise KeyError
  end.

Definition set_shutdown (b : bool) : M unit := fun s =>
  ({| tasks := tasks s; records := records s; now := now s;
      scheduled := scheduled s; next_handle := next_handle s;
      _auto_reset_handles := _auto_reset_handles s;
      _shutdown := b; callbacks := callbacks s |}, Ok tt).

Definition get_shutdown : M bool := fun s => (s, Ok (_shutdown s)).

(** [device.on_event = ...; device.on_properties_changed = ...] *)
Definition attach_callbacks (id : Z) : M unit := fun s =>
  ({| tasks := tasks s; records := records s; now := now s;
      scheduled := scheduled s; next_handle := next_handle s;
      _auto_reset_handles := _auto_reset_handles s;
      _shutdown := _shutdown s; callbacks := {[id]} ∪ callbacks s |}, Ok tt).

Definition _publish (topic : string) (message : pyvalue) (retain : bool)
  : M unit :=
  create_task (async_publish topic message retain).

(** *** Panel driver callbacks *)

Definition _baseunit_event (contact_id : ContactID) : M unit :=
  let event_data := VJson (contact_as_dict contact_id) in
  _publish (baseunit config +:+ "/event") event_data false;;
  (if truthy_int (event_code contact_id) then
     match event_qualifier contact_id with
     | Event =>
       _publish (baseunit config +:+ "/event_code")
                (py_event_code (event_code contact_id)) false
     | Restore =>
       _publish (baseunit config +:+ "/restore_code")
                (py_event_code (event_code contact_id)) false
     | OtherQualifier _ => mret tt
     end
   else mret tt);;
  match event_qualifier contact_id, event_category contact_id with
  | Event, Alarm =>
    _publish (slash (baseunit config) TOPIC_HASTATE) (VStr "triggered") true
  | _, _ => mret tt
  end.

Definition _publish_baseunit_property (name : string) (value : pyvalue)
  : M unit :=
  let topic_parent := baseunit config in
  if String.eqb name BaseUnit_PROP_STATE then
    _publish topic_parent value true;;
    let topic := slash topic_parent TOPIC_HASTATE in
    match value with
    | VBaseUnitState Disarm | VBaseUnitState Monitor =>
      _publish topic (VStr "disarmed") true
    | VBaseUnitState Home => _publish topic (VStr "armed_home") true
    | VBaseUnitState Away => _publish topic (VStr "armed_away") true
    | VBaseUnitState AwayExitDelay | VBaseUnitState AwayEntryDelay =>
      _publish topic (VStr "pending") true
    | _ => mret tt
    end
  else if existsb (String.eqb name)
            [BaseUnit_PROP_IS_CONNECTED; BaseUnit_PROP_ROM_VERSION;
             BaseUnit_PROP_EXIT_DELAY; BaseUnit_PROP_ENTRY_DELAY;
             BaseUnit_PROP_OPERATION_MODE] then
    _publish (slash topic_parent name) value true
  else mret tt.

Definition _baseunit_properties_changed (changes : list PropertyChangedInfo)
  : M unit :=
  for_each (fun change =>
              _publish_baseunit_property (pc_name change) (pc_new_value change))
           changes.

(** The body shared by the four flag-enum branches of
    [_publish_device_property]: one publication per member of the enum. *)
Definition publish_flags (topic_parent name : string) (flags : FlagEnum)
    (value : pyvalue) : M unit :=
  for_each (fun item : string * Z =>
              v ← lift (py_and value (snd item));
              _publish (slash (slash topic_parent name) (fst item))
                       (VBool (bool_of_int v)) true)
           flags.

Definition _publish_device_property (topic_parent : string) (device : Device)
    (name : string) (value : pyvalue) : M unit :=
  if negb (is_special device) && String.eqb name Device_PROP_IS_CLOSED then
    match type device with
    | DoorMagnet => _publish topic_parent (OpenClosed_parse value) true
    | _ => _publish topic_parent (VOnOff Off) true
    end
  else if is_special device
          && String.eqb name SpecialDevice_PROP_CURRENT_READING then
    _publish topic_parent value true
  else if String.eqb name Device_PROP_CATEGORY then
    match value with
    | VCategory as_dict =>
      for_each (fun prop : string * pyvalue =>
                  if existsb (String.eqb (fst prop)) ["code"; "description"]
                  then _publish (slash (slash topic_parent name) (fst prop))
                                (snd prop) true
                  else mret tt)
               as_dict
    | _ => raise AttributeError
    end
  else if String.eqb name Device_PROP_CHARACTERISTICS then
    publish_flags topic_parent name DCFlags value
  else if String.eqb name Device_PROP_ENABLE_STATUS then
    publish_flags topic_parent name ESFlags value
  else if String.eqb name Device_PROP_SWITCHES then
    publish_flags topic_parent name SwitchFlags value
  else if String.eqb name SpecialDevice_PROP_SPECIAL_STATUS then
    publish_flags topic_parent name SSFlags value
  else if existsb (String.eqb name)
            [Device_PROP_DEVICE_ID; Device_PROP_ZONE; Device_PROP_TYPE;
             Device_PROP_RSSI_DB; Device_PROP_RSSI_BARS;
             SpecialDevice_PROP_HIGH_LIMIT; SpecialDevice_PROP_LOW_LIMIT;
             SpecialDevice_PROP_CONTROL_LIMIT_FIELDS_EXIST;
             SpecialDevice_PROP_CONTROL_HIGH_LIMIT;
             SpecialDevice_PROP_CONTROL_LOW_LIMIT] then
    _publish (slash topic_parent name) value true
  else mret tt.

Definition _publish_ha_device_config (device : Device)
    (device_config : TranslatorDeviceConfig) : M unit :=
  let unique_id := PROJECT_NAME +:+ "_" +:+ format_06x (device_id device) in
  let message :=
    [(HA_NAME, py_opt_str (dc_ha_name device_config));
     (HA_UNIQUE_ID, VStr unique_id);
     (HA_STATE_TOPIC, py_opt_str (dc_topic device_config));
     (HA_AVAILABILITY_TOPIC,
      VStr (slash (baseunit config) BaseUnit_PROP_IS_CONNECTED));
     (HA_PAYLOAD_AVAILABLE, VStr (bool_str true));
     (HA_PAYLOAD_NOT_AVAILABLE, VStr (bool_str false))] in
  match ha_device_entry (type device) with
  | Some (ha_platform, added) =>
    _publish (slash (slash (slash (fmt_opt (ha_discovery_prefix config))
                                  ha_platform) unique_id) "config")
             (VJson (message ++ added)) true
  | None => log WARNING (DeviceTypeSkipped (type device))
  end.

Definition _baseunit_device_added (device : Device) : M unit :=
  attach_callbacks (device_id device);;
  let device_config := devices config !! device_id device in
  match device_config with
  | Some dc =>
    match dc_topic dc with
    | Some (String _ _ as topic) =>
      for_each (fun prop : string * pyvalue =>
                  _publish_device_property topic device (fst prop) (snd prop))
               (attrs device)
    | _ => mret tt
    end
  | None => mret tt
  end;;
  if truthy_str (ha_discovery_prefix config) then
    match device_config with
    | None => raise AttributeError
    | Some dc =>
      if truthy_str (dc_ha_name dc)
      then _publish_ha_device_config device dc
      else mret tt
    end
  else mret tt.

Definition _device_on_properties_changed (device : Device)
    (changes : list PropertyChangedInfo) : M unit :=
  match devices config !! device_id device with
  | Some dc =>
    match dc_topic dc with
    | Some (String _ _ as topic) =>
      for_each (fun change =>
                  _publish_device_property topic device (pc_name change)
                                           (pc_new_value change))
               changes
    | _ => mret tt
    end
  | None => mret tt
  end.

(** [device_config.auto_reset_interval or Translator.AUTO_RESET_INTERVAL] *)
Definition auto_reset_delay (device_config : TranslatorDeviceConfig) : Z :=
  match dc_auto_reset_interval device_config with
  | Some i => if bool_of_int i then i else AUTO_RESET_INTERVAL
  | None => AUTO_RESET_INTERVAL
  end.

Definition _device_on_event (device : Device) (event_code : DeviceEventCode)
  : M unit :=
  match devices config !! device_id device with
  | Some dc =>
    match dc_topic dc with
    | Some (String _ _ as topic) =>
      _publish (topic +:+ "/event_code") (VDeviceEventCode event_code) false;;
      match event_code with
      | Trigger =>
        _publish topic (OnOff_parse (VBool true)) true;;
        handles ← get_handles;
        match handles !! device_id device with
        | Some handle => cancel handle
        | None => mret tt
        end;;
        handle ← call_later (auto_reset_delay dc) (device_id device);
        handles ← get_handles;
        set_handles (<[device_id device := handle]> handles)
      | OtherEventCode _ => mret tt
      end
    | _ => mret tt
    end
  | None => mret tt
  end.

Definition _auto_reset (device_id : Z) : M unit :=
  match devices config !! device_id with
  | Some dc =>
    match dc_topic dc with
    | Some (String _ _ as topic) =>
      _publish topic (OnOff_parse (VBool false)) true
    | _ => mret tt
    end
  | None => mret tt
  end;;
  pop_handle device_id;;
  mret tt.

(** The loop running a timer: a handle that is scheduled, not cancelled and
    due leaves the schedule and its callback [_auto_reset(arg)] runs. *)
Definition timer_ready (clock : Z) (h : nat) (t : TimerHandle) : bool :=
  Nat.eqb (th_id t) h && negb (th_cancelled t) && (th_when t <=? clock).

Definition unschedule (h : nat) : M unit := fun s =>
  ({| tasks := tasks s; records := records s; now := now s;
      scheduled := List.filter (fun t => negb (Nat.eqb (th_id t) h)) (scheduled s);
      next_handle := next_handle s;
      _auto_reset_handles := _auto_reset_handles s;
      _shutdown := _shutdown s; callbacks := callbacks s |}, Ok tt).

Definition run_timer (h : nat) : M unit := fun s =>
  match find (timer_ready (now s) h) (scheduled s) with
  | Some t => (unschedule h;; _auto_reset (th_arg t)) s
  | None => (s, Ok tt)
  end.

(** The loop's clock moving on. *)
Definition advance (d : Z) : M unit := fun s =>
  ({| tasks := tasks s; records := records s; now := now s + d;
      scheduled := scheduled s; next_handle := next_handle s;
      _auto_reset_handles := _auto_reset_handles s;
      _shutdown := _shutdown s; callbacks := callbacks s |}, Ok tt).

(** The timer part of [async_stop]: cancel and forget every handle. *)
Definition async_stop : M unit :=
  handles ← get_handles;
  for_each (fun item : Z * nat =>
              cancel (snd item);;
              pop_handle (fst item);;
              mret tt)
           (map_to_list handles).

(** *** Inbound messages *)

Definition _on_message_baseunit (subscribetopic : SubscribeTopic)
    (message : ApplicationMessage) : M unit :=
  match st_args subscribetopic with
  | ArgsName args =>
    if String.eqb args BaseUnit_PROP_OPERATION_MODE then
      name ← lift (data_text (am_data message));
      match OperationMode_parse_name name with
      | None => log WARNING (CannotSetOperationMode name)
      | Some operation_mode =>
        create_task (async_set_operation_mode operation_mode)
      end
    else raise NotImplementedError
  | _ => raise NotImplementedError
  end.

Definition _on_message_clear_status (subscribetopic : SubscribeTopic)
    (message : ApplicationMessage) : M unit :=
  create_task async_clear_status.

(** The attribute lookup [dateutil.parser] of line 598.  The module is bound
    by [import dateutil] (line 11), the only import of the package: it loads
    the package alone, whose [__init__] (python-dateutil 2.7, as [setup.py]
    pins it) imports no submodule, and nothing else in the translator imports
    [dateutil.parser].  The lookup therefore raises AttributeError; had the
    submodule been imported it would give the module whose [parse] turns a
    text into a date-time. *)
Definition dateutil_parser : result (string -> result datetime) :=
  Raise AttributeError.

Definition _on_message_set_datetime (subscribetopic : SubscribeTopic)
    (message : ApplicationMessage) : M unit :=
  value ← lift (data_text (am_data message));
  value ← match value with
          | Some (String _ _ as text) =>
            parse ← lift dateutil_parser;
            d ← lift (parse text); mret (Parsed d)
          | _ => mret (Unparsed value)
          end;
  create_task (async_set_datetime value).

Definition _on_message_switch (subscribetopic : SubscribeTopic)
    (message : ApplicationMessage) : M unit :=
  match st_args subscribetopic with
  | ArgsSwitch switch_number =>
    name ← lift (data_text (am_data message));
    match OnOff_parse_name name with
    | None => log WARNING (CannotSetSwitch switch_number name)
    | Some state =>
      create_task (async_set_switch_state switch_number
                                          (bool_of_int (OnOff_value state)))
    end
  | _ => raise TypeError
  end.

(** [subscribetopic.on_message(subscribetopic, message)] *)
Definition on_message (subscribetopic : SubscribeTopic)
    (message : ApplicationMessage) : M unit :=
  match st_on_message subscribetopic with
  | on_message_clear_status => _on_message_clear_status subscribetopic message
  | on_message_set_datetime => _on_message_set_datetime subscribetopic message
  | on_message_baseunit => _on_message_baseunit subscribetopic message
  | on_message_switch => _on_message_switch subscribetopic message
  end.

(** The topics built in [__init__]. *)
Definition switch_subscribetopics : list SubscribeTopic :=
  flat_map (fun switch_number : SwitchNumber =>
              match dict_get (switches config) switch_number with
              | Some switch_config =>
                match sc_topic switch_config with
                | Some (String _ _ as topic) =>
                  [{| st_topic := slash topic TOPIC_SET;
                      st_on_message := on_message_switch;
                      st_args := ArgsSwitch switch_number |}]
                | _ => []
                end
              | None => []
              end)
           (map fst (switches config)).

Definition _subscribetopics : list SubscribeTopic :=
  [{| st_topic := slash (baseunit config) TOPIC_CLEAR_STATUS;
      st_on_message := on_message_clear_status;
      st_args := ArgsNone |};
   {| st_topic := slash (slash (baseunit config) TOPIC_DATETIME) TOPIC_SET;
      st_on_message := on_message_set_datetime;
      st_args := ArgsNone |}]
  ++ map (fun name =>
            {| st_topic := slash (slash (baseunit config) name) TOPIC_SET;
               st_on_message := on_message_baseunit;
               st_args := ArgsName name |})
         [BaseUnit_PROP_OPERATION_MODE]
  ++ switch_subscribetopics.

(** [{st.topic: st for st in self._subscribetopics}]: a later entry replaces
    an earlier one with the same topic. *)
Definition _subscribetopics_lookup : gmap string SubscribeTopic :=
  fold_left (fun d st => <[st_topic st := st]> d) _subscribetopics ∅.

(** The second [try] of [async_loop]: look the topic up and call its
    handler; log whatever is raised. *)
Definition process_message (message : ApplicationMessage) : M unit :=
  try_except
    (match _subscribetopics_lookup !! am_topic message with
     | Some subscribetopic => on_message subscribetopic message
     | None => raise KeyError
     end)
    (fun e => log ERROR (ExceptionProcessingMessage (am_topic message) e)).

Definition signal_shutdown : M unit := set_shutdown true.

(** [async_loop] over the turns the environment provides; it returns when
    the shutdown flag is seen or the turns are exhausted. *)
Fixpoint async_loop (turns : list Turn) : M unit :=
  match turns with
  | [] => mret tt
  | turn :: turns' =>
    shutdown ← get_shutdown;
    if shutdown : bool then (mret tt : M unit)
    else
      (if sigint turn then signal_shutdown else mret tt);;
      match outcome turn with
      | TimeoutError => async_loop turns'
      | DeliverException =>
        log ERROR ExceptionWaitingForMessage;;
        async_loop turns'
      | Delivered message =>
        process_message message;;
        async_loop turns'
      end
  end.

(** The state after [__init__]. *)
Definition init : Translator :=
  {| tasks := []; records := []; now := 0; scheduled := []; next_handle := O;
     _auto_reset_handles := ∅; _shutdown := false; callbacks := ∅ |}.

(** ** What is observed of a state *)

(** The publications among the tasks, in order. *)
Definition publications (s : Translator) : list (string * pyvalue * bool) :=
  flat_map (fun t => match t with
                     | async_publish topic message retain =>
                       [(topic, message, retain)]
                     | _ => []
                     end)
           (tasks s).

(** The driver calls among the tasks, in order. *)
Definition driver_calls (s : Translator) : list Task :=
  List.filter is_driver_call (tasks s).

(** A timer that will fire: scheduled and not cancelled. *)
Definition live_timers (device_id : Z) (s : Translator) : list TimerHandle :=
  List.filter (fun t => (th_arg t =? device_id) && negb (th_cancelled t))
              (scheduled s).

(** The state with further tasks created, nothing else changed. *)
Definition with_tasks (s : Translator) (ts : list Task) : Translator :=
  {| tasks := tasks s ++ ts; records := records s; now := now s;
     scheduled := scheduled s; next_handle := next_handle s;
     _auto_reset_handles := _auto_reset_handles s;
     _shutdown := _shutdown s; callbacks := callbacks s |}.

(** The state with further log records, nothing else changed. *)
Definition with_records (s : Translator) (rs : list LogRecord) : Translator :=
  {| tasks := tasks s; records := records s ++ rs; now := now s;
     scheduled := scheduled s; next_handle := next_handle s;
     _auto_reset_handles := _auto_reset_handles s;
     _shutdown := _shutdown s; callbacks := callbacks s |}.

Definition as_task (p : string * pyvalue * bool) : Task :=
  async_publish (fst (fst p)) (snd (fst p)) (snd p).

(** The state with these publications issued, in order. *)
Definition published (s : Translator) (ps : list (string * pyvalue * bool))
  : Translator :=
  with_tasks s (map as_task ps).

(** [_async_publish]: the text whose UTF-8 bytes go to the broker, for the
    messages whose [str] Python or the spec fixes; [None] for the driver's own
    enums and for numbers, whose text is not needed here. *)
Definition payload_text (message : pyvalue) : option string :=
  match message with
  | VNone => Some ""
  | VBool b => Some (bool_str b)
  | VStr s => Some s
  | VOnOff o => Some (OnOff_str o)
  | VOpenClosed o => Some (OpenClosed_str o)
  | _ => None
  end.

(** ** The spec's tables, in the spec's words *)

(** Base-unit state to the synthesized [ha_state]. *)
Definition spec_ha_state (value : pyvalue) : option string :=
  match value with
  | VBaseUnitState Disarm => Some "disarmed"
  | VBaseUnitState Monitor => Some "disarmed"
  | VBaseUnitState Home => Some "armed_home"
  | VBaseUnitState Away => Some "armed_away"
  | VBaseUnitState AwayExitDelay => Some "pending"
  | VBaseUnitState AwayEntryDelay => Some "pending"
  | _ => None
  end.

(** Base-unit property changed: the publications the spec lists. *)
Definition spec_baseunit_property (name : string) (value : pyvalue)
  : list (string * pyvalue * bool) :=
  if decide (name = "state") then
    (baseunit config, value, true)
    :: match spec_ha_state value with
       | Some text => [(baseunit config +:+ "/ha_state", VStr text, true)]
       | None => []
       end
  else if decide (name ∈ ["is_connected"; "rom_version"; "exit_delay";
                          "entry_delay"; "operation_mode"]) then
    [(baseunit config +:+ "/" +:+ name, value, true)]
  else [].

(** Base-unit event occurred: the publications as the claim lists them, the
    bare code going out whenever the qualifier is Event or Restore. *)
Definition spec_baseunit_event (contact_id : ContactID)
  : list (string * pyvalue * bool) :=
  [(baseunit config +:+ "/event", VJson (contact_as_dict contact_id), false)]
  ++ match event_qualifier contact_id with
     | Event => [(baseunit config +:+ "/event_code",
                  py_event_code (event_code contact_id), false)]
     | Restore => [(baseunit config +:+ "/restore_code",
                    py_event_code (event_code contact_id), false)]
     | OtherQualifier _ => []
     end
  ++ match event_qualifier contact_id, event_category contact_id with
     | Event, Alarm => [(baseunit config +:+ "/ha_state", VStr "triggered", true)]
     | _, _ => []
     end.

(** The same, with the bare code going out only when the record carries an
    event code that is true (present and not zero). *)
Definition spec_baseunit_event_coded (contact_id : ContactID)
  : list (string * pyvalue * bool) :=
  [(baseunit config +:+ "/event", VJson (contact_as_dict contact_id), false)]
  ++ match event_code contact_id with
     | Some code =>
       if decide (code = 0) then []
       else
         match event_qualifier contact_id with
         | Event => [(baseunit config +:+ "/event_code",
                      VContactIDEventCode code, false)]
         | Restore => [(baseunit config +:+ "/restore_code",
                        VContactIDEventCode code, false)]
         | OtherQualifier _ => []
         end
     | None => []
     end
  ++ match event_qualifier contact_id, event_category contact_id with
     | Event, Alarm => [(baseunit config +:+ "/ha_state", VStr "triggered", true)]
     | _, _ => []
     end.

(** ** Runs of the translator *)

Definition exec {A : Type} (m : M A) (s : Translator) : Translator :=
  fst (m s).

Definition returned {A : Type} (m : M A) (s : Translator) : result A :=
  snd (m s).

(** Everything that can happen to a translator: a callback of the driver, the
    loop running a timer or processing turns, the clock moving on, the stop.
    A step is taken whether the code returns or raises. *)
Inductive step : Translator -> Translator -> Prop :=
| step_device_on_event (device : Device) (event_code : DeviceEventCode) s :
    step s (exec (_device_on_event device event_code) s)
| step_run_timer (h : nat) s :
    step s (exec (run_timer h) s)
| step_advance (d : Z) s :
    0 <= d -> step s (exec (advance d) s)
| step_async_stop s :
    step s (exec async_stop s)
| step_baseunit_event (contact_id : ContactID) s :
    step s (exec (_baseunit_event contact_id) s)
| step_baseunit_properties_changed (changes : list PropertyChangedInfo) s :
    step s (exec (_baseunit_properties_changed changes) s)
| step_baseunit_device_added (device : Device) s :
    step s (exec (_baseunit_device_added device) s)
| step_device_on_properties_changed (device : Device)
    (changes : list PropertyChangedInfo) s :
    step s (exec (_device_on_properties_changed device changes) s)
| step_async_loop (turns : list Turn) s :
    step s (exec (async_loop turns) s).

(** The states the translator can be in, starting from [__init__]. *)
Inductive reachable : Translator -> Prop :=
| reachable_init : reachable init
| reachable_step s s' : reachable s -> step s s' -> reachable s'.

(** The timer registry and the loop's schedule agree: handle identities are
    unique and below the next one; a timer that will fire is the one the
    registry holds for its device; a handle the registry holds is a scheduled
    timer of that device that will fire. *)
Record timers_wf (s : Translator) : Prop := {
  wf_fresh : forall t, In t (scheduled s) -> (th_id t < next_handle s)%nat;
  wf_nodup : NoDup (map th_id (scheduled s));
  wf_live : forall t, In t (scheduled s) -> th_cancelled t = false ->
            _auto_reset_handles s !! th_arg t = Some (th_id t);
  wf_held : forall k h, _auto_reset_handles s !! k = Some h ->
            exists t, In t (scheduled s) /\ th_id t = h /\ th_arg t = k
                      /\ th_cancelled t = false
}.

(** Code that leaves the clock, the schedule and the registry alone. *)
Definition frames {A : Type} (m : M A) : Prop :=
  forall s, scheduled (exec m s) = scheduled s
            /\ _auto_reset_handles (exec m s) = _auto_reset_handles s
            /\ next_handle (exec m s) = next_handle s
            /\ now (exec m s) = now s.

(** The timer [call_later] creates in state [s]. *)
Definition new_timer (s : Translator) (delay : Z) (arg : Z) : TimerHandle :=
  {| th_id := next_handle s; th_when := now s + delay; th_arg := arg;
     th_cancelled := false |}.

(** What [_auto_reset] publishes for a device: off, retained, on the device's
    topic when it has one. *)
Definition auto_reset_publication (device_id : Z)
  : list (string * pyvalue * bool) :=
  match devices config !! device_id with
  | Some dc =>
    match dc_topic dc with
    | Some (String c topic) => [(String c topic, VOnOff Off, true)]
    | _ => []
    end
  | None => []
  end.

(** Arming the timer of a device, as [_device_on_event] does after its
    publications: cancel the handle the registry holds, schedule a new timer,
    store its handle. *)
Definition armed (s : Translator) (device_id delay : Z) : Translator :=
  {| tasks := tasks s; records := records s; now := now s;
     scheduled :=
       match _auto_reset_handles s !! device_id with
       | Some handle => map (cancel_timer handle) (scheduled s)
       | None => scheduled s
       end ++ [new_timer s delay device_id];
     next_handle := S (next_handle s);
     _auto_reset_handles :=
       <[device_id := next_handle s]> (_auto_reset_handles s);
     _shutdown := _shutdown s; callbacks := callbacks s |}.

(** A timer of state [s] taken off the schedule and out of the registry, as
    when it fires. *)
Definition fired (s : Translator) (t : TimerHandle) : Translator :=
  {| tasks := tasks s; records := records s; now := now s;
     scheduled :=
       List.filter (fun t' => negb (Nat.eqb (th_id t') (th_id t)))
                   (scheduled s);
     next_handle := next_handle s;
     _auto_reset_handles := delete (th_arg t) (_auto_reset_handles s);
     _shutdown := _shutdown s; callbacks := callbacks s |}.

(** The entries [__init__] builds for the two base-unit command topics. *)
Definition datetime_subscribetopic : SubscribeTopic :=
  {| st_topic := slash (slash (baseunit config) TOPIC_DATETIME) TOPIC_SET;
     st_on_message := on_message_set_datetime;
     st_args := ArgsNone |}.

Definition operation_mode_subscribetopic : SubscribeTopic :=
  {| st_topic :=
       slash (slash (baseunit config) BaseUnit_PROP_OPERATION_MODE) TOPIC_SET;
     st_on_message := on_message_baseunit;
     st_args := ArgsName BaseUnit_PROP_OPERATION_MODE |}.

(** The record the loop logs for an exception out of a handler. *)
Definition processing_error (message : ApplicationMessage) (e : exn)
  : LogRecord :=
  {| levelname := ERROR;
     msg := ExceptionProcessingMessage (am_topic message) e |}.

(** One turn of the loop that delivers a message, no signal arriving. *)
Definition deliver (message : ApplicationMessage) : Turn :=
  {| sigint := false; outcome := Delivered message |}.

(** Code that leaves an observation [f] of the state as it was, whether it
    returns or raises. *)
Definition preserves {A X : Type} (f : Translator -> X) (m : M A) : Prop :=
  forall s, f (exec m s) = f s.

(** [_baseunit_device_deleted]: both callbacks of the device are set to
    [None]. *)
Definition detach_callbacks (id : Z) : M unit := fun s =>
  ({| tasks := tasks s; records := records s; now := now s;
      scheduled := scheduled s; next_handle := next_handle s;
      _auto_reset_handles := _auto_reset_handles s;
      _shutdown := _shutdown s; callbacks := callbacks s ∖ {[id]} |}, Ok tt).

Definition _baseunit_device_deleted (device : Device) : M unit :=
  detach_callbacks (device_id device).

(** [_baseunit_switch_state_changed]: [state] is an optional boolean, handed
    to [OnOff.parse_value]. *)
Definition _baseunit_switch_state_changed (switch_number : SwitchNumber)
    (state : option bool) : M unit :=
  match dict_get (switches config) switch_number with
  | Some switch_config =>
    match sc_topic switch_config with
    | Some (String _ _ as topic) =>
      _publish topic
               (OnOff_parse (match state with
                             | Some b => VBool b
                             | None => VNone
                             end)) true
    | _ => mret tt
    end
  | None => mret tt
  end.

(** The attribute names [_publish_device_property] has a branch for. *)
Definition device_property_names : list string :=
  [Device_PROP_IS_CLOSED; SpecialDevice_PROP_CURRENT_READING;
   Device_PROP_CATEGORY; Device_PROP_CHARACTERISTICS;
   Device_PROP_ENABLE_STATUS; Device_PROP_SWITCHES;
   SpecialDevice_PROP_SPECIAL_STATUS;
   Device_PROP_DEVICE_ID; Device_PROP_ZONE; Device_PROP_TYPE;
   Device_PROP_RSSI_DB; Device_PROP_RSSI_BARS;
   SpecialDevice_PROP_HIGH_LIMIT; SpecialDevice_PROP_LOW_LIMIT;
   SpecialDevice_PROP_CONTROL_LIMIT_FIELDS_EXIST;
   SpecialDevice_PROP_CONTROL_HIGH_LIMIT;
   SpecialDevice_PROP_CONTROL_LOW_LIMIT].

(** ** The monad at work *)

Lemma with_tasks_nil (s : Translator) : with_tasks s [] = s.
Proof. destruct s; unfold with_tasks; simpl. by rewrite app_nil_r. Qed.

Lemma with_tasks_app (s : Translator) (a b : list Task) :
  with_tasks (with_tasks s a) b = with_tasks s (a ++ b).
Proof. unfold with_tasks; simpl. by rewrite app_assoc. Qed.

Lemma published_nil (s : Translator) : published s [] = s.
Proof. apply with_tasks_nil. Qed.

Lemma published_app (s : Translator) (a b : list (string * pyvalue * bool)) :
  published (published s a) b = published s (a ++ b).
Proof. unfold published. by rewrite with_tasks_app, map_app. Qed.

Lemma run_publish topic message retain (s : Translator) :
  _publish topic message retain s
  = (published s [(topic, message, retain)], Ok tt).
Proof. reflexivity. Qed.

Lemma run_bind {A B : Type} (m : M A) (f : A -> M B) s s' a :
  m s = (s', Ok a) -> (m ≫= f) s = f a s'.
Proof. intros H. unfold mbind, M_bind. by rewrite H. Qed.

Lemma run_bind_raise {A B : Type} (m : M A) (f : A -> M B) s s' e :
  m s = (s', Raise e) -> (m ≫= f) s = (s', Raise e).
Proof. intros H. unfold mbind, M_bind. by rewrite H. Qed.

Lemma run_ret {A : Type} (a : A) (s : Translator) :
  (mret a : M A) s = (s, Ok a).
Proof. reflexivity. Qed.

Lemma publications_published s ps :
  publications (published s ps) = publications s ++ ps.
Proof.
  unfold publications, published, with_tasks; simpl.
  rewrite flat_map_app. f_equal.
  induction ps as [|[[t m] r] ps IH]; simpl; [done | by rewrite IH].
Qed.

Lemma driver_calls_published s ps :
  driver_calls (published s ps) = driver_calls s.
Proof.
  unfold driver_calls, published, with_tasks; simpl.
  rewrite List.filter_app.
  replace (List.filter is_driver_call (map as_task ps)) with (@nil Task).
  - by rewrite app_nil_r.
  - induction ps as [|p ps IH]; simpl; done.
Qed.

(** Straight-line publishing code: run each [_publish] and gather. *)
Ltac run_publishes :=
  repeat first
    [ erewrite run_bind by apply run_publish
    | rewrite run_publish
    | rewrite run_ret
    | erewrite run_bind by apply run_ret
    | rewrite published_app ];
  simpl app.

(** C3: a base-unit property change issues exactly the publications the spec
    lists and nothing else: for [state] the raw value retained on the
    base-unit topic, followed by the retained [ha_state] text disarmed (Disarm,
    Monitor), armed_home (Home), armed_away (Away), pending (AwayExitDelay,
    AwayEntryDelay) and no [ha_state] for any other value; for a name outside
    state, is_connected, rom_version, exit_delay, entry_delay and
    operation_mode nothing at all.  The handler never raises. *)
Theorem C3_baseunit_property_publications :
  forall (name : string) (value : pyvalue) (s : Translator),
    _publish_baseunit_property name value s
    = (published s (spec_baseunit_property name value), Ok tt).
Proof.
  intros name value s.
  unfold _publish_baseunit_property, spec_baseunit_property.
  unfold BaseUnit_PROP_STATE.
  destruct (String.eqb_spec name "state") as [->|Hne].
  - rewrite decide_True by done.
    destruct value as [| | | | | | |st| | | |]; try destruct st;
      simpl spec_ha_state; unfold slash, TOPIC_HASTATE; run_publishes;
      reflexivity.
  - rewrite decide_False by done.
    destruct (existsb _ _) eqn:Hin.
    + apply existsb_exists in Hin as (x & Hx & Heq).
      apply String.eqb_eq in Heq; subst x.
      rewrite decide_True by (by apply list_elem_of_In).
      unfold slash. run_publishes. reflexivity.
    + rewrite decide_False.
      * by rewrite published_nil.
      * intros Hin'. apply list_elem_of_In in Hin'.
        assert (existsb (String.eqb name)
                  [BaseUnit_PROP_IS_CONNECTED; BaseUnit_PROP_ROM_VERSION;
                   BaseUnit_PROP_EXIT_DELAY; BaseUnit_PROP_ENTRY_DELAY;
                   BaseUnit_PROP_OPERATION_MODE] = true) as Hex.
        { apply existsb_exists. exists name. split; [exact Hin'|].
          apply String.eqb_refl. }
        congruence.
Qed.

(** C4 (amended): a base-unit event issues exactly: the whole event, not
    retained, on [{baseunit}/event]; then, only when the record carries an
    event code that is true, the bare code, not retained, on
    [{baseunit}/event_code] for qualifier Event or [{baseunit}/restore_code]
    for qualifier Restore; then, for qualifier Event and category Alarm,
    the text triggered, retained, on [{baseunit}/ha_state]. *)
Theorem C4_baseunit_event_publications :
  forall (contact_id : ContactID) (s : Translator),
    _baseunit_event contact_id s
    = (published s (spec_baseunit_event_coded contact_id), Ok tt).
Proof.
  intros [q c code d] s.
  unfold _baseunit_event, spec_baseunit_event_coded, slash, TOPIC_HASTATE.
  simpl event_code; simpl event_qualifier; simpl event_category;
    simpl contact_as_dict.
  destruct code as [code|]; simpl truthy_int; simpl py_event_code.
  - unfold bool_of_int. destruct (Z.eqb_spec code 0) as [->|Hne]; simpl negb.
    + rewrite decide_True by done.
      destruct q, c; run_publishes; reflexivity.
    + rewrite decide_False by done.
      destruct q, c; run_publishes; reflexivity.
  - destruct q, c; run_publishes; reflexivity.
Qed.

(** ** Code that does not touch the timers *)

Create HintDb frames.

Lemma frames_ret {A : Type} (a : A) : frames (mret a : M A).
Proof. intros s. done. Qed.

Lemma frames_raise {A : Type} (e : exn) : frames (raise e : M A).
Proof. intros s. done. Qed.

Lemma frames_lift {A : Type} (r : result A) : frames (lift r).
Proof. intros s. done. Qed.

Lemma frames_create_task (t : Task) : frames (create_task t).
Proof. intros s. done. Qed.

Lemma frames_log l m : frames (log l m).
Proof. intros s. done. Qed.

Lemma frames_publish topic message retain :
  frames (_publish topic message retain).
Proof. intros s. done. Qed.

Lemma frames_set_shutdown b : frames (set_shutdown b).
Proof. intros s. done. Qed.

Lemma frames_get_shutdown : frames get_shutdown.
Proof. intros s. done. Qed.

Lemma frames_attach_callbacks id : frames (attach_callbacks id).
Proof. intros s. done. Qed.

Lemma frames_bind {A B : Type} (m : M A) (f : A -> M B) :
  frames m -> (forall a, frames (f a)) -> frames (m ≫= f).
Proof.
  intros Hm Hf s. specialize (Hm s). unfold exec, mbind, M_bind in *.
  destruct (m s) as [s1 [a|e]]; simpl in Hm.
  - specialize (Hf a s1). unfold exec in Hf.
    destruct Hm as (? & ? & ? & ?), Hf as (? & ? & ? & ?).
    repeat split; congruence.
  - exact Hm.
Qed.

Lemma frames_try_except {A : Type} (m : M A) (h : exn -> M A) :
  frames m -> (forall e, frames (h e)) -> frames (try_except m h).
Proof.
  intros Hm Hh s. specialize (Hm s). unfold exec, try_except in *.
  destruct (m s) as [s1 [a|e]]; simpl in Hm.
  - exact Hm.
  - specialize (Hh e s1). unfold exec in Hh.
    destruct Hm as (? & ? & ? & ?), Hh as (? & ? & ? & ?).
    repeat split; congruence.
Qed.

Lemma frames_for_each {A : Type} (f : A -> M unit) (l : list A) :
  (forall a, frames (f a)) -> frames (for_each f l).
Proof.
  intros Hf. induction l as [|a l IH]; simpl.
  - apply frames_ret.
  - apply frames_bind; [apply Hf | intros _; exact IH].
Qed.

#[local] Hint Resolve frames_ret frames_raise frames_lift frames_create_task
  frames_log frames_publish frames_set_shutdown frames_get_shutdown
  frames_attach_callbacks : frames.

(** Walk through a handler's body: binds, loops, branches. *)
Ltac frames_walk :=
  repeat first
    [ progress auto with frames
    | apply frames_bind; [|intros]
    | apply frames_try_except; [|intros]
    | apply frames_for_each; intros
    | match goal with
      | |- frames (match ?x with _ => _ end) => destruct x
      | |- frames (if ?b then _ else _) => destruct b
      end ].

Lemma frames_baseunit_event contact_id : frames (_baseunit_event contact_id).
Proof. unfold _baseunit_event. frames_walk. Qed.

Lemma frames_publish_baseunit_property name value :
  frames (_publish_baseunit_property name value).
Proof. unfold _publish_baseunit_property. frames_walk. Qed.

Lemma frames_baseunit_properties_changed changes :
  frames (_baseunit_properties_changed changes).
Proof.
  unfold _baseunit_properties_changed. apply frames_for_each. intros c.
  apply frames_publish_baseunit_property.
Qed.

Lemma frames_publish_flags topic_parent name flags value :
  frames (publish_flags topic_parent name flags value).
Proof. unfold publish_flags. frames_walk. Qed.

Lemma frames_publish_device_property topic_parent device name value :
  frames (_publish_device_property topic_parent device name value).
Proof.
  unfold _publish_device_property.
  pose proof frames_publish_flags. frames_walk.
Qed.

Lemma frames_publish_ha_device_config device device_config :
  frames (_publish_ha_device_config device device_config).
Proof.
  unfold _publish_ha_device_config.
  destruct (ha_device_entry (type device)) as [[p a]|]; auto with frames.
Qed.

Lemma frames_baseunit_device_added device :
  frames (_baseunit_device_added device).
Proof.
  unfold _baseunit_device_added.
  pose proof frames_publish_device_property.
  pose proof frames_publish_ha_device_config.
  frames_walk.
Qed.

Lemma frames_device_on_properties_changed device changes :
  frames (_device_on_properties_changed device changes).
Proof.
  unfold _device_on_properties_changed.
  pose proof frames_publish_device_property. frames_walk.
Qed.

Lemma frames_on_message subscribetopic message :
  frames (on_message subscribetopic message).
Proof.
  unfold on_message, _on_message_clear_status, _on_message_set_datetime,
    _on_message_baseunit, _on_message_switch.
  frames_walk.
Qed.

Lemma frames_process_message message : frames (process_message message).
Proof.
  unfold process_message. pose proof frames_on_message. frames_walk.
Qed.

Lemma frames_async_loop turns : frames (async_loop turns).
Proof.
  induction turns as [|turn turns IH]; simpl.
  - apply frames_ret.
  - pose proof frames_process_message. unfold signal_shutdown.
    frames_walk.
Qed.

(** ** The timer registry *)

Lemma same_id_same_timer (l : list TimerHandle) (t1 t2 : TimerHandle) :
  NoDup (map th_id l) -> In t1 l -> In t2 l -> th_id t1 = th_id t2 -> t1 = t2.
Proof.
  induction l as [|x l IH]; simpl; [tauto|].
  intros Hnd H1 H2 Heq. apply NoDup_cons in Hnd as [Hx Hnd].
  rewrite list_elem_of_In in Hx.
  destruct H1 as [->|H1], H2 as [->|H2]; auto.
  - exfalso. apply Hx. rewrite Heq. by apply in_map.
  - exfalso. apply Hx. rewrite <- Heq. by apply in_map.
Qed.

Lemma map_id_cancel_timer h (l : list TimerHandle) :
  map th_id (map (cancel_timer h) l) = map th_id l.
Proof.
  rewrite map_map. apply map_ext. intros t. unfold cancel_timer.
  by destruct (th_id t =? h)%nat.
Qed.

Lemma in_cancel_timer h (l : list TimerHandle) t :
  In t (map (cancel_timer h) l) ->
  exists t0, In t0 l /\ t = cancel_timer h t0.
Proof. intros Hin. apply in_map_iff in Hin as (t0 & <- & Hin). eauto. Qed.

Lemma cancel_timer_live h t :
  th_cancelled (cancel_timer h t) = false ->
  cancel_timer h t = t /\ th_id t ≠ h /\ th_cancelled t = false.
Proof.
  unfold cancel_timer. destruct (Nat.eqb_spec (th_id t) h); simpl; [done|].
  auto.
Qed.

Lemma cancel_timer_other h t : th_id t ≠ h -> cancel_timer h t = t.
Proof.
  intros Hne. unfold cancel_timer.
  by destruct (Nat.eqb_spec (th_id t) h).
Qed.

Lemma timers_wf_init : timers_wf init.
Proof. split; simpl; try done. constructor. Qed.

Lemma timers_wf_same (s s' : Translator) :
  scheduled s' = scheduled s ->
  _auto_reset_handles s' = _auto_reset_handles s ->
  next_handle s' = next_handle s ->
  timers_wf s -> timers_wf s'.
Proof.
  intros H1 H2 H3 [Hf Hn Hl Hh].
  split; rewrite ?H1, ?H2, ?H3; assumption.
Qed.

Lemma timers_wf_frames {A : Type} (m : M A) (s : Translator) :
  frames m -> timers_wf s -> timers_wf (exec m s).
Proof.
  intros Hm. destruct (Hm s) as (H1 & H2 & H3 & _).
  by apply timers_wf_same.
Qed.

Lemma timers_wf_published s ps : timers_wf s -> timers_wf (published s ps).
Proof. by apply timers_wf_same. Qed.

Lemma timers_wf_armed s id delay : timers_wf s -> timers_wf (armed s id delay).
Proof.
  intros [Hf Hn Hl Hh].
  assert (forall t, In t (scheduled (armed s id delay)) ->
            t = new_timer s delay id
            \/ exists t0, In t0 (scheduled s)
                 /\ (t = t0
                     \/ exists h, _auto_reset_handles s !! id = Some h
                                  /\ t = cancel_timer h t0)) as Hsplit.
  { intros t Hin. simpl in Hin. apply in_app_or in Hin as [Hin|[<-|[]]].
    - right. destruct (_auto_reset_handles s !! id) as [h|] eqn:Hh'.
      + apply in_cancel_timer in Hin as (t0 & Hin & ->). eauto 6.
      + eauto.
    - by left. }
  assert (map th_id (scheduled (armed s id delay))
          = map th_id (scheduled s) ++ [next_handle s]) as Hids.
  { simpl. rewrite map_app. simpl. f_equal.
    destruct (_auto_reset_handles s !! id); [apply map_id_cancel_timer|done]. }
  split.
  - intros t Hin. apply (in_map th_id) in Hin. rewrite Hids in Hin.
    apply in_app_or in Hin as [Hin|[<-|[]]]; simpl; [|lia].
    apply in_map_iff in Hin as (t0 & <- & Hin). apply Hf in Hin. lia.
  - rewrite Hids. apply NoDup_app. split; [exact Hn|]. split.
    + intros h Hin [Hnew|[]]%list_elem_of_In.
      apply list_elem_of_In, in_map_iff in Hin as (t0 & Heq & Hin).
      apply Hf in Hin. lia.
    + apply NoDup_singleton.
  - intros t Hin Hlive.
    destruct (Hsplit t Hin) as [->|(t0 & Hin0 & Ht)].
    + simpl. by rewrite lookup_insert_eq.
    + assert (t = t0 /\ th_cancelled t0 = false
              /\ (forall h, _auto_reset_handles s !! id = Some h ->
                            th_id t0 ≠ h)) as (-> & Hlive0 & Hne).
      { destruct Ht as [->|(h & Hh' & ->)].
        - split; [done|]. split; [done|].
          intros h Hh' Heq. simpl in Hin. rewrite Hh' in Hin.
          apply in_app_or in Hin as [Hin|[Hin|[]]].
          + apply in_cancel_timer in Hin as (t1 & Hin1 & Ht1).
            assert (t1 = t0) as ->.
            { apply (same_id_same_timer (scheduled s)); auto.
              rewrite Ht1. unfold cancel_timer.
              by destruct (th_id t1 =? h)%nat. }
            rewrite Ht1 in Hlive. unfold cancel_timer in Hlive.
            rewrite Heq, Nat.eqb_refl in Hlive. done.
          + apply Hf in Hin0. rewrite <- Hin in Hin0. simpl in Hin0. lia.
        - apply cancel_timer_live in Hlive as (Hsame & Hne & Hlive0).
          split; [done|]. split; [done|]. intros h' Hh''. congruence. }
      simpl. pose proof (Hl t0 Hin0 Hlive0) as Hreg.
      rewrite lookup_insert_ne; [done|].
      intros Heq. rewrite <- Heq in Hreg. by apply (Hne _ Hreg).
  - intros k h Hk. simpl in Hk.
    destruct (decide (id = k)) as [<-|Hne].
    + rewrite lookup_insert_eq in Hk. injection Hk as <-.
      exists (new_timer s delay id). simpl. split; [|done].
      apply in_or_app. right. by left.
    + rewrite lookup_insert_ne in Hk by done.
      destruct (Hh k h Hk) as (t0 & Hin0 & Hid & Harg & Hlive0).
      exists t0. split; [|done]. simpl. apply in_or_app. left.
      destruct (_auto_reset_handles s !! id) as [h'|] eqn:Hh'; [|done].
      replace t0 with (cancel_timer h' t0); [by apply in_map|].
      apply cancel_timer_other. intros Heq.
      destruct (Hh id h' Hh') as (t1 & Hin1 & Hid1 & Harg1 & _).
      assert (t1 = t0) as ->
        by (apply (same_id_same_timer (scheduled s)); auto; congruence).
      congruence.
Qed.

(** What [_device_on_event] does, case by case. *)
Lemma run_device_on_event_trigger device dc c topic s :
  devices config !! device_id device = Some dc ->
  dc_topic dc = Some (String c topic) ->
  _device_on_event device Trigger s
  = (armed (published s [(String c topic +:+ "/event_code",
                          VDeviceEventCode Trigger, false);
                         (String c topic, VOnOff On, true)])
           (device_id device) (auto_reset_delay dc), Ok tt).
Proof.
  intros Hdc Htopic. unfold _device_on_event. rewrite Hdc, Htopic.
  run_publishes.
  unfold mbind, M_bind, get_handles, armed, new_timer; simpl.
  by destruct (_auto_reset_handles s !! device_id device).
Qed.

Lemma run_device_on_event_other device dc c topic name s :
  devices config !! device_id device = Some dc ->
  dc_topic dc = Some (String c topic) ->
  _device_on_event device (OtherEventCode name) s
  = (published s [(String c topic +:+ "/event_code",
                   VDeviceEventCode (OtherEventCode name), false)], Ok tt).
Proof.
  intros Hdc Htopic. unfold _device_on_event. rewrite Hdc, Htopic.
  by run_publishes.
Qed.

Lemma run_device_on_event_no_topic device event_code s :
  (forall dc, devices config !! device_id device = Some dc ->
              truthy_str (dc_topic dc) = false) ->
  _device_on_event device event_code s = (s, Ok tt).
Proof.
  intros Hno. unfold _device_on_event.
  destruct (devices config !! device_id device) as [dc|]; [|done].
  specialize (Hno dc eq_refl).
  by destruct (dc_topic dc) as [[|c topic]|].
Qed.

Lemma timers_wf_device_on_event device event_code s :
  timers_wf s -> timers_wf (exec (_device_on_event device event_code) s).
Proof.
  intros Hwf. unfold exec.
  destruct (devices config !! device_id device) as [dc|] eqn:Hdc.
  - destruct (dc_topic dc) as [[|c topic]|] eqn:Htopic.
    + rewrite run_device_on_event_no_topic; [done|].
      intros dc' Hdc'. rewrite Hdc in Hdc'. injection Hdc' as <-.
      by rewrite Htopic.
    + destruct event_code.
      * erewrite run_device_on_event_trigger by eassumption. simpl.
        by apply timers_wf_armed, timers_wf_published.
      * erewrite run_device_on_event_other by eassumption. simpl.
        by apply timers_wf_published.
    + rewrite run_device_on_event_no_topic; [done|].
      intros dc' Hdc'. rewrite Hdc in Hdc'. injection Hdc' as <-.
      by rewrite Htopic.
  - rewrite run_device_on_event_no_topic; [done|].
    intros dc' Hdc'. by rewrite Hdc in Hdc'.
Qed.

Lemma filter_none {A : Type} (f : A -> bool) (l : list A) :
  (forall x, In x l -> f x = false) -> List.filter f l = [].
Proof.
  induction l as [|x l IH]; simpl; [done|]. intros H.
  rewrite (H x) by auto. apply IH. auto.
Qed.

(** After arming, the device has exactly one timer that will fire: the new
    one. *)
Lemma live_timers_armed s id delay :
  timers_wf s -> live_timers id (armed s id delay) = [new_timer s delay id].
Proof.
  intros [Hf Hn Hl Hh]. unfold live_timers. simpl scheduled.
  rewrite List.filter_app. simpl. rewrite Z.eqb_refl. simpl.
  rewrite filter_none; [done|].
  intros t Hin. apply andb_false_iff.
  destruct (Z.eqb_spec (th_arg t) id) as [Harg|]; [right|by left].
  apply negb_false_iff.
  destruct (_auto_reset_handles s !! id) as [h|] eqn:Hreg.
  - apply in_cancel_timer in Hin as (t0 & Hin0 & ->).
    destruct (th_cancelled (cancel_timer h t0)) eqn:Hc; [done|].
    apply cancel_timer_live in Hc as (Hsame & Hne & Hlive).
    rewrite Hsame in Harg. pose proof (Hl t0 Hin0 Hlive) as Hreg'.
    congruence.
  - destruct (th_cancelled t) eqn:Hc; [done|].
    pose proof (Hl t Hin Hc) as Hreg'. congruence.
Qed.

(** Arming leaves the timer it replaces on the schedule, cancelled. *)
Lemma armed_cancels s id delay t :
  timers_wf s -> In t (live_timers id s) ->
  In (cancel_timer (th_id t) t) (scheduled (armed s id delay))
  /\ th_cancelled (cancel_timer (th_id t) t) = true.
Proof.
  intros [Hf Hn Hl Hh] Hin. unfold live_timers in Hin.
  apply filter_In in Hin as (Hin & Hlive).
  apply andb_true_iff in Hlive as (Harg%Z.eqb_eq & Hlive%negb_true_iff).
  split.
  - simpl. apply in_or_app. left.
    rewrite <- Harg, (Hl t Hin Hlive). by apply in_map.
  - unfold cancel_timer. by rewrite Nat.eqb_refl.
Qed.

(** At most one timer per device will fire. *)
Lemma live_timers_at_most_one s id :
  timers_wf s -> (length (live_timers id s) <= 1)%nat.
Proof.
  intros [Hf Hn Hl Hh].
  assert (forall t, In t (live_timers id s) ->
            In t (scheduled s) /\ th_arg t = id /\ th_cancelled t = false)
    as Hlt.
  { intros t Hin. apply filter_In in Hin as (Hin & Hb).
    apply andb_true_iff in Hb as (Harg%Z.eqb_eq & Hlive%negb_true_iff).
    done. }
  assert (NoDup (live_timers id s)) as Hnd.
  { unfold live_timers.
    apply NoDup_ListNoDup, List.NoDup_filter, NoDup_ListNoDup.
    eapply NoDup_fmap_1. exact Hn. }
  destruct (live_timers id s) as [|t1 [|t2 l]]; simpl; [lia|lia|].
  exfalso.
  destruct (Hlt t1) as (Hin1 & Ha1 & Hc1); [by left|].
  destruct (Hlt t2) as (Hin2 & Ha2 & Hc2); [right; by left|].
  assert (t1 = t2) as ->.
  { apply (same_id_same_timer (scheduled s)); auto.
    pose proof (Hl t1 Hin1 Hc1). pose proof (Hl t2 Hin2 Hc2). congruence. }
  apply NoDup_cons in Hnd as [Hnot _]. apply Hnot. by left.
Qed.

Lemma run_auto_reset id h s :
  _auto_reset_handles s !! id = Some h ->
  _auto_reset id s
  = (let s' := published s (auto_reset_publication id) in
     {| tasks := tasks s'; records := records s'; now := now s';
        scheduled := scheduled s'; next_handle := next_handle s';
        _auto_reset_handles := delete id (_auto_reset_handles s);
        _shutdown := _shutdown s'; callbacks := callbacks s' |}, Ok tt).
Proof.
  intros Hreg. unfold _auto_reset, auto_reset_publication.
  destruct (devices config !! id) as [dc|].
  - destruct (dc_topic dc) as [[|c topic]|];
      cbv [mbind M_bind mret M_ret pop_handle get_handles set_handles];
      simpl; rewrite Hreg; simpl; rewrite ?app_nil_r; reflexivity.
  - cbv [mbind M_bind mret M_ret pop_handle get_handles set_handles]; simpl.
    rewrite Hreg; simpl; rewrite ?app_nil_r; reflexivity.
Qed.

Lemma find_timer_ready clock h l t :
  find (timer_ready clock h) l = Some t ->
  In t l /\ th_id t = h /\ th_cancelled t = false /\ th_when t <= clock.
Proof.
  intros Hfind. apply find_some in Hfind as (Hin & Hb).
  unfold timer_ready in Hb.
  apply andb_true_iff in Hb as (Hb & Hdue%Z.leb_le).
  apply andb_true_iff in Hb as (Hid%Nat.eqb_eq & Hlive%negb_true_iff).
  done.
Qed.

(** A timer that is ready runs: off is published, the timer leaves the
    schedule and the registry, and nothing is raised. *)
Lemma run_timer_ready h t s :
  timers_wf s ->
  find (timer_ready (now s) h) (scheduled s) = Some t ->
  run_timer h s
  = (fired (published s (auto_reset_publication (th_arg t))) t, Ok tt).
Proof.
  intros Hwf Hfind. unfold run_timer. rewrite Hfind.
  apply find_timer_ready in Hfind as (Hin & Hid & Hlive & _).
  pose proof (wf_live s Hwf t Hin Hlive) as Hreg.
  unfold mbind at 1. unfold M_bind. unfold unschedule at 1.
  erewrite run_auto_reset by (simpl; exact Hreg).
  unfold fired, published, with_tasks; simpl. by rewrite Hid.
Qed.

Lemma nodup_ids_filter (f : TimerHandle -> bool) (l : list TimerHandle) :
  NoDup (map th_id l) -> NoDup (map th_id (List.filter f l)).
Proof.
  induction l as [|x l IH]; simpl; [done|].
  intros [Hx Hnd]%NoDup_cons. destruct (f x); simpl; auto.
  apply NoDup_cons. split; [|auto].
  intros Hin. apply Hx.
  apply list_elem_of_In, in_map_iff in Hin as (y & Heq & Hin).
  apply filter_In in Hin as (Hin & _).
  apply list_elem_of_In, in_map_iff. eauto.
Qed.

Lemma timers_wf_fired s t :
  timers_wf s -> In t (scheduled s) -> th_cancelled t = false ->
  timers_wf (fired s t).
Proof.
  intros [Hf Hn Hl Hh] Hin Hlive. split; simpl.
  - intros t' (Hin' & _)%filter_In. by apply Hf.
  - by apply nodup_ids_filter.
  - intros t' (Hin' & Hne)%filter_In Hlive'.
    apply negb_true_iff, Nat.eqb_neq in Hne.
    pose proof (Hl t' Hin' Hlive') as Hreg'.
    pose proof (Hl t Hin Hlive) as Hreg.
    rewrite lookup_delete_ne; [done|]. intros Heq.
    rewrite Heq in Hreg. congruence.
  - intros k h Hk.
    destruct (decide (th_arg t = k)) as [<-|Hne].
    + by rewrite lookup_delete_eq in Hk.
    + rewrite lookup_delete_ne in Hk by done.
      destruct (Hh k h Hk) as (t0 & Hin0 & Hid0 & Harg0 & Hlive0).
      exists t0. split; [|done]. apply filter_In. split; [done|].
      apply negb_true_iff, Nat.eqb_neq. intros Heq.
      assert (t0 = t) as ->
        by (by apply (same_id_same_timer (scheduled s))).
      done.
Qed.

Lemma timers_wf_run_timer h s :
  timers_wf s -> timers_wf (exec (run_timer h) s).
Proof.
  intros Hwf. unfold exec.
  destruct (find (timer_ready (now s) h) (scheduled s)) as [t|] eqn:Hfind.
  - rewrite (run_timer_ready h t s Hwf Hfind). simpl.
    apply find_timer_ready in Hfind as (Hin & _ & Hlive & _).
    apply timers_wf_fired; [by apply timers_wf_published|done|done].
  - unfold run_timer. by rewrite Hfind.
Qed.

Lemma timers_wf_advance d s : timers_wf s -> timers_wf (exec (advance d) s).
Proof. by apply timers_wf_same. Qed.

(** One turn of the loop in [async_stop]. *)
Lemma run_cancel_pop k h s :
  _auto_reset_handles s !! k = Some h ->
  (cancel h;; pop_handle k;; mret tt) s
  = ({| tasks := tasks s; records := records s; now := now s;
        scheduled := map (cancel_timer h) (scheduled s);
        next_handle := next_handle s;
        _auto_reset_handles := delete k (_auto_reset_handles s);
        _shutdown := _shutdown s; callbacks := callbacks s |}, Ok tt).
Proof.
  intros Hreg.
  cbv [mbind M_bind mret M_ret pop_handle get_handles set_handles cancel].
  simpl. by rewrite Hreg.
Qed.

Lemma timers_wf_cancel_pop k h s :
  timers_wf s -> _auto_reset_handles s !! k = Some h ->
  timers_wf (exec (cancel h;; pop_handle k;; mret tt) s).
Proof.
  intros Hwf Hreg. unfold exec. rewrite (run_cancel_pop k h s Hreg).
  destruct Hwf as [Hf Hn Hl Hh].
  destruct (Hh k h Hreg) as (tk & Hink & Hidk & Hargk & Hlivek).
  split; simpl.
  - intros t (t0 & Hin0 & ->)%in_cancel_timer.
    unfold cancel_timer. destruct (th_id t0 =? h)%nat; simpl; by apply Hf.
  - by rewrite map_id_cancel_timer.
  - intros t (t0 & Hin0 & ->)%in_cancel_timer Hlive.
    apply cancel_timer_live in Hlive as (-> & Hne & Hlive0).
    pose proof (Hl t0 Hin0 Hlive0) as Hreg0.
    rewrite lookup_delete_ne; [done|]. intros Heq.
    rewrite Heq in Hreg. congruence.
  - intros k' h' Hk'.
    destruct (decide (k = k')) as [<-|Hne].
    + by rewrite lookup_delete_eq in Hk'.
    + rewrite lookup_delete_ne in Hk' by done.
      destruct (Hh k' h' Hk') as (t0 & Hin0 & Hid0 & Harg0 & Hlive0).
      exists t0. split; [|done].
      replace t0 with (cancel_timer h t0); [by apply in_map|].
      apply cancel_timer_other. intros Heq.
      assert (t0 = tk) as ->
        by (apply (same_id_same_timer (scheduled s)); auto; congruence).
      congruence.
Qed.

Lemma timers_wf_stop_loop (l : list (Z * nat)) : forall s,
  NoDup (l.*1) ->
  (forall k h, In (k, h) l -> _auto_reset_handles s !! k = Some h) ->
  timers_wf s ->
  let body := fun item : Z * nat =>
                cancel (snd item);; pop_handle (fst item);; mret tt in
  timers_wf (exec (for_each body l) s)
  /\ returned (for_each body l) s = Ok tt.
Proof.
  induction l as [|[k h] l IH]; intros s Hnd Hl Hwf body; [done|].
  apply NoDup_cons in Hnd as [Hk Hnd].
  assert (_auto_reset_handles s !! k = Some h) as Hreg by (apply Hl; by left).
  pose proof (timers_wf_cancel_pop k h s Hwf Hreg) as Hwf1.
  pose proof (run_cancel_pop k h s Hreg) as Hrun.
  unfold exec, returned in *. simpl for_each. subst body. simpl fst; simpl snd.
  erewrite run_bind by exact Hrun. rewrite Hrun in Hwf1. simpl in Hwf1.
  apply IH; [done| |done].
  intros k' h' Hin. simpl. rewrite lookup_delete_ne.
  - apply Hl. by right.
  - intros <-. apply Hk.
    apply (list_elem_of_fmap_2' fst l (k, h')); [|done].
    by apply list_elem_of_In.
Qed.

(** [async_stop] empties the registry without raising. *)
Lemma timers_wf_async_stop s :
  timers_wf s ->
  timers_wf (exec async_stop s) /\ returned async_stop s = Ok tt.
Proof.
  intros Hwf. unfold async_stop, exec, returned.
  erewrite run_bind by reflexivity.
  apply timers_wf_stop_loop; [apply NoDup_fst_map_to_list| |done].
  intros k h Hin. by apply elem_of_map_to_list, list_elem_of_In.
Qed.

Lemma timers_wf_step s s' : timers_wf s -> step s s' -> timers_wf s'.
Proof.
  intros Hwf Hstep. destruct Hstep.
  - by apply timers_wf_device_on_event.
  - by apply timers_wf_run_timer.
  - by apply timers_wf_advance.
  - by apply timers_wf_async_stop.
  - by apply timers_wf_frames; [apply frames_baseunit_event|].
  - by apply timers_wf_frames; [apply frames_baseunit_properties_changed|].
  - by apply timers_wf_frames; [apply frames_baseunit_device_added|].
  - by apply timers_wf_frames; [apply frames_device_on_properties_changed|].
  - by apply timers_wf_frames; [apply frames_async_loop|].
Qed.

Lemma timers_wf_reachable s : reachable s -> timers_wf s.
Proof.
  induction 1 as [|s s' _ IH Hstep]; [apply timers_wf_init|].
  by apply (timers_wf_step s).
Qed.

(** C1: in every state the translator can reach, each device id has at most
    one timer that will fire.  A Trigger event arms one timer, at the clock
    plus the interval, and stores its handle; a second Trigger event after
    the clock moved on by [d], with no fire in between, cancels that handle
    (the first timer stays on the schedule, cancelled) and stores a new one,
    so that exactly one timer will fire, at the second deadline. *)
Theorem C1_one_live_timer_per_device (s : Translator) (Hs : reachable s) :
  (forall id, (length (live_timers id s) <= 1)%nat)
  /\ (forall device dc c topic d,
        devices config !! device_id device = Some dc ->
        dc_topic dc = Some (String c topic) ->
        0 <= d ->
        let id := device_id device in
        let delay := auto_reset_delay dc in
        let s1 := exec (_device_on_event device Trigger) s in
        let s2 := exec (advance d;; _device_on_event device Trigger) s1 in
        let t1 := {| th_id := next_handle s; th_when := now s + delay;
                     th_arg := id; th_cancelled := false |} in
        let t1_cancelled :=
              {| th_id := next_handle s; th_when := now s + delay;
                 th_arg := id; th_cancelled := true |} in
        let t2 := {| th_id := S (next_handle s);
                     th_when := now s + d + delay;
                     th_arg := id; th_cancelled := false |} in
        live_timers id s1 = [t1]
        /\ _auto_reset_handles s1 !! id = Some (th_id t1)
        /\ live_timers id s2 = [t2]
        /\ _auto_reset_handles s2 !! id = Some (th_id t2)
        /\ In t1_cancelled (scheduled s2)
        /\ (length (live_timers id s2) <= 1)%nat).
Proof.
  pose proof (timers_wf_reachable s Hs) as Hwf.
  split; [intros id; by apply live_timers_at_most_one|].
  intros device dc c topic d Hdc Htopic Hd id delay s1 s2 t1 t1c t2.
  assert (s1 = armed (published s [(String c topic +:+ "/event_code",
                                    VDeviceEventCode Trigger, false);
                                   (String c topic, VOnOff On, true)])
                     id delay) as Hs1.
  { subst s1. unfold exec.
    by rewrite (run_device_on_event_trigger device dc c topic s Hdc Htopic). }
  assert (timers_wf s1) as Hwf1.
  { rewrite Hs1. by apply timers_wf_armed, timers_wf_published. }
  assert (s2 = armed (published (exec (advance d) s1)
                        [(String c topic +:+ "/event_code",
                          VDeviceEventCode Trigger, false);
                         (String c topic, VOnOff On, true)])
                     id delay) as Hs2.
  { subst s2. unfold exec at 1.
    erewrite run_bind by reflexivity.
    by rewrite (run_device_on_event_trigger device dc c topic _ Hdc Htopic). }
  assert (timers_wf (published (exec (advance d) s1)
                        [(String c topic +:+ "/event_code",
                          VDeviceEventCode Trigger, false);
                         (String c topic, VOnOff On, true)])) as Hwf1'.
  { by apply timers_wf_published, timers_wf_advance. }
  assert (live_timers id s1 = [t1]) as Hlive1.
  { rewrite Hs1, live_timers_armed by (by apply timers_wf_published). done. }
  assert (live_timers id s2 = [t2]) as Hlive2.
  { rewrite Hs2, live_timers_armed by done.
    unfold new_timer. rewrite Hs1. simpl. done. }
  repeat split.
  - exact Hlive1.
  - rewrite Hs1. simpl. by rewrite lookup_insert_eq.
  - exact Hlive2.
  - rewrite Hs2. simpl. rewrite lookup_insert_eq. by rewrite Hs1.
  - assert (In t1 (live_timers id (published (exec (advance d) s1)
                        [(String c topic +:+ "/event_code",
                          VDeviceEventCode Trigger, false);
                         (String c topic, VOnOff On, true)]))) as Hin.
    { change (In t1 (live_timers id s1)). rewrite Hlive1. by left. }
    destruct (armed_cancels _ id delay t1 Hwf1' Hin) as (Hc & _).
    rewrite Hs2.
    replace t1c with (cancel_timer (th_id t1) t1); [exact Hc|].
    unfold cancel_timer, t1, t1c. simpl. by rewrite Nat.eqb_refl.
  - rewrite Hlive2. simpl. lia.
Qed.

Lemma find_app_none {A : Type} (f : A -> bool) (l1 l2 : list A) :
  (forall x, In x l1 -> f x = false) -> find f (l1 ++ l2) = find f l2.
Proof.
  induction l1 as [|x l1 IH]; simpl; [done|]. intros H.
  rewrite (H x) by auto. apply IH. auto.
Qed.

(** The timer just armed is the one the loop finds under its handle, from
    its deadline on and not before. *)
Lemma find_armed_timer s id delay clock :
  timers_wf s ->
  find (timer_ready clock (next_handle s)) (scheduled (armed s id delay))
  = if now s + delay <=? clock then Some (new_timer s delay id) else None.
Proof.
  intros [Hf Hn Hl Hh]. simpl scheduled. rewrite find_app_none.
  - simpl. unfold timer_ready. simpl. rewrite Nat.eqb_refl. simpl.
    by destruct (now s + delay <=? clock).
  - intros t Hin. unfold timer_ready.
    assert (th_id t ≠ next_handle s) as Hne.
    { destruct (_auto_reset_handles s !! id).
      - apply in_cancel_timer in Hin as (t0 & Hin0 & ->).
        apply Hf in Hin0. unfold cancel_timer.
        destruct (th_id t0 =? n)%nat; simpl; lia.
      - apply Hf in Hin. lia. }
    apply Nat.eqb_neq in Hne. by rewrite Hne.
Qed.

Lemma filter_comm {A : Type} (f g : A -> bool) (l : list A) :
  List.filter f (List.filter g l) = List.filter g (List.filter f l).
Proof.
  induction l as [|x l IH]; simpl; [done|].
  destruct (f x) eqn:Hf, (g x) eqn:Hg; simpl; rewrite ?Hf, ?Hg, ?IH; done.
Qed.

Lemma live_timers_fired s t id :
  live_timers id (fired s t)
  = List.filter (fun t' => negb (Nat.eqb (th_id t') (th_id t)))
                (live_timers id s).
Proof. unfold live_timers. simpl. apply filter_comm. Qed.

Lemma live_timers_same s s' id :
  scheduled s' = scheduled s -> live_timers id s' = live_timers id s.
Proof. unfold live_timers. by intros ->. Qed.

(** C2: a device event for a device whose config has a topic publishes the
    event code, not retained, on [{deviceTopic}/event_code] and nothing is
    raised.  For Trigger it then publishes on, retained, on the device topic
    and arms the device's one timer at the clock plus the configured interval,
    30 when none (or zero) is configured; the loop does not run that timer
    before its deadline, and running it from the deadline on publishes off,
    retained, on the same topic and leaves the device without timer and
    without handle.  For any other code nothing further happens. *)
Theorem C2_device_event (device : Device) (dc : TranslatorDeviceConfig)
    (c : ascii) (rest : string) (event_code : DeviceEventCode)
    (s : Translator)
    (Hdc : devices config !! device_id device = Some dc)
    (Htopic : dc_topic dc = Some (String c rest))
    (Hs : reachable s) :
  let topic := String c rest in
  let id := device_id device in
  let s1 := exec (_device_on_event device event_code) s in
  returned (_device_on_event device event_code) s = Ok tt
  /\ match event_code with
     | Trigger =>
       let delay :=
         match dc_auto_reset_interval dc with
         | Some interval => if decide (interval = 0) then 30 else interval
         | None => 30
         end in
       let t := {| th_id := next_handle s; th_when := now s + delay;
                   th_arg := id; th_cancelled := false |} in
       publications s1
       = publications s
         ++ [(topic +:+ "/event_code", VDeviceEventCode Trigger, false);
             (topic, VOnOff On, true)]
       /\ payload_text (VOnOff On) = Some "on"
       /\ live_timers id s1 = [t]
       /\ _auto_reset_handles s1 !! id = Some (th_id t)
       /\ (forall d, 0 <= d < delay ->
             run_timer (th_id t) (exec (advance d) s1)
             = (exec (advance d) s1, Ok tt))
       /\ (forall d, 0 <= d -> delay <= d ->
             let s2 := exec (run_timer (th_id t)) (exec (advance d) s1) in
             returned (run_timer (th_id t)) (exec (advance d) s1) = Ok tt
             /\ publications s2
                = publications s1 ++ [(topic, VOnOff Off, true)]
             /\ payload_text (VOnOff Off) = Some "off"
             /\ live_timers id s2 = []
             /\ _auto_reset_handles s2 !! id = None)
     | OtherEventCode _ =>
       s1 = published s [(topic +:+ "/event_code",
                          VDeviceEventCode event_code, false)]
     end.
Proof.
  intros topic id s1. pose proof (timers_wf_reachable s Hs) as Hwf.
  destruct event_code as [|name].
  - pose proof (run_device_on_event_trigger device dc c rest s Hdc Htopic)
      as Hrun.
    set (s0 := published s [(String c rest +:+ "/event_code",
                             VDeviceEventCode Trigger, false);
                            (String c rest, VOnOff On, true)]) in *.
    assert (timers_wf s0) as Hwf0 by (by apply timers_wf_published).
    assert (auto_reset_delay dc
            = match dc_auto_reset_interval dc with
              | Some interval => if decide (interval = 0) then 30 else interval
              | None => 30
              end) as Hdelay.
    { unfold auto_reset_delay, bool_of_int, AUTO_RESET_INTERVAL.
      destruct (dc_auto_reset_interval dc) as [i|]; [|done].
      destruct (Z.eqb_spec i 0); simpl;
        [by rewrite decide_True|by rewrite decide_False]. }
    rewrite <- Hdelay. set (delay := auto_reset_delay dc) in *.
    assert (s1 = armed s0 id delay) as Hs1
      by (subst s1; unfold exec; by rewrite Hrun).
    unfold returned. rewrite Hrun. split; [done|]. cbv zeta.
    assert (live_timers id s1 = [new_timer s0 delay id]) as Hlive
      by (rewrite Hs1; by apply live_timers_armed).
    split; [|split; [done|split; [exact Hlive|split]]].
    + rewrite Hs1. change (publications (armed s0 id delay))
        with (publications s0).
      unfold s0. by rewrite publications_published.
    + rewrite Hs1. simpl. by rewrite lookup_insert_eq.
    + split.
      * intros d [Hd0 Hd]. unfold run_timer.
        replace (scheduled (exec (advance d) s1))
          with (scheduled (armed s0 id delay)) by (by rewrite Hs1).
        change (next_handle s) with (next_handle s0).
        rewrite (find_armed_timer s0 id delay _ Hwf0).
        replace (now s0 + delay <=? now (exec (advance d) s1)) with false;
          [done|].
        symmetry. apply Z.leb_gt. rewrite Hs1. simpl. lia.
      * intros d Hd0 Hd.
        assert (timers_wf (exec (advance d) s1)) as Hwfd.
        { apply timers_wf_advance. rewrite Hs1. by apply timers_wf_armed. }
        assert (find (timer_ready (now (exec (advance d) s1)) (next_handle s))
                     (scheduled (exec (advance d) s1))
                = Some (new_timer s0 delay id)) as Hfind.
        { replace (scheduled (exec (advance d) s1))
            with (scheduled (armed s0 id delay)) by (by rewrite Hs1).
          change (next_handle s) with (next_handle s0).
          rewrite (find_armed_timer s0 id delay _ Hwf0).
          replace (now s0 + delay <=? now (exec (advance d) s1)) with true;
            [done|].
          symmetry. apply Z.leb_le. rewrite Hs1. simpl. lia. }
        pose proof (run_timer_ready _ _ _ Hwfd Hfind) as Hfire.
        simpl th_id in *.
        assert (exec (run_timer (next_handle s)) (exec (advance d) s1)
                = fired (published (exec (advance d) s1)
                           (auto_reset_publication
                              (th_arg (new_timer s0 delay id))))
                        (new_timer s0 delay id)) as Hex
          by (unfold exec at 1; by rewrite Hfire).
        rewrite Hex. split; [by rewrite Hfire|].
        assert (auto_reset_publication id = [(topic, VOnOff Off, true)])
          as Hoff.
        { unfold auto_reset_publication. subst id. by rewrite Hdc, Htopic. }
        simpl th_arg. rewrite Hoff.
        split; [|split; [done|split]].
        -- unfold publications at 1. simpl tasks.
           rewrite flat_map_app. simpl. done.
        -- rewrite live_timers_fired.
           rewrite (live_timers_same s1 (published (exec (advance d) s1) _))
             by done.
           rewrite Hlive. simpl. by rewrite Nat.eqb_refl.
        -- simpl. by rewrite lookup_delete_eq.
  - pose proof (run_device_on_event_other device dc c rest name s Hdc Htopic)
      as Hrun.
    unfold returned. subst s1. unfold exec. by rewrite Hrun.
Qed.

(** ** Device properties *)

Lemma append_assoc (a b c : string) : (a +:+ b) +:+ c = a +:+ (b +:+ c).
Proof.
  induction a as [|x a IH]; [done|].
  change (String x ((a +:+ b) +:+ c) = String x (a +:+ (b +:+ c))).
  by rewrite IH.
Qed.

Lemma slash_slash (a b c : string) :
  slash (slash a b) c = a +:+ "/" +:+ b +:+ "/" +:+ c.
Proof. unfold slash. by rewrite !append_assoc. Qed.

Lemma run_publish_flags topic_parent name (flags : FlagEnum) (v : Z) :
  forall s,
    publish_flags topic_parent name flags (VInt v) s
    = (published s
         (map (fun item : string * Z =>
                 (topic_parent +:+ "/" +:+ name +:+ "/" +:+ fst item,
                  VBool (negb (Z.land v (snd item) =? 0)), true))
              flags), Ok tt).
Proof.
  unfold publish_flags.
  induction flags as [|item flags IH]; intros s; simpl for_each.
  - by rewrite published_nil.
  - erewrite run_bind; [|erewrite run_bind by reflexivity; apply run_publish].
    rewrite IH, published_app. simpl. by rewrite slash_slash.
Qed.

(** A flag that is a single bit tests that bit. *)
Lemma land_pow2_testbit (v : Z) (k : nat) :
  negb (Z.land v (2 ^ Z.of_nat k) =? 0) = Z.testbit v (Z.of_nat k).
Proof.
  assert (0 <= Z.of_nat k) as Hk by lia.
  assert (Z.land v (2 ^ Z.of_nat k)
          = if Z.testbit v (Z.of_nat k) then 2 ^ Z.of_nat k else 0) as ->.
  { apply Z.bits_inj'. intros n Hn. rewrite Z.land_spec.
    rewrite (Z.pow2_bits_eqb (Z.of_nat k) n Hk).
    destruct (Z.eqb_spec (Z.of_nat k) n) as [<-|Hne].
    - destruct (Z.testbit v (Z.of_nat k)) eqn:Hb; simpl.
      + by rewrite Z.pow2_bits_true.
      + by rewrite Z.bits_0.
    - rewrite andb_false_r.
      destruct (Z.testbit v (Z.of_nat k)).
      + rewrite Z.pow2_bits_false; auto.
      + by rewrite Z.bits_0. }
  destruct (Z.testbit v (Z.of_nat k)); [|done].
  assert (0 < 2 ^ Z.of_nat k) by (apply Z.pow_pos_nonneg; lia).
  destruct (Z.eqb_spec (2 ^ Z.of_nat k) 0); [lia|done].
Qed.

(** C5: for a device that is not a special device, a change of [is_closed]
    publishes, retained, on the device's own topic: for a DoorMagnet the text
    closed for true and open for false; for every other type the text off,
    whatever the value.  Nothing else is published and nothing is raised. *)
Theorem C5_is_closed (topic_parent : string) (device : Device)
    (s : Translator) (Hregular : is_special device = false) :
  (type device = DoorMagnet ->
   forall b : bool,
     _publish_device_property topic_parent device Device_PROP_IS_CLOSED
                              (VBool b) s
     = (published s [(topic_parent,
                      VOpenClosed (if b then Closed else Open), true)], Ok tt)
     /\ payload_text (VOpenClosed (if b then Closed else Open))
        = Some (if b then "closed" else "open"))
  /\ (type device <> DoorMagnet ->
      forall value : pyvalue,
        _publish_device_property topic_parent device Device_PROP_IS_CLOSED
                                 value s
        = (published s [(topic_parent, VOnOff Off, true)], Ok tt)
        /\ payload_text (VOnOff Off) = Some "off").
Proof.
  unfold _publish_device_property. rewrite Hregular. simpl.
  split.
  - intros -> b. split; [|by destruct b]. by destruct b.
  - intros Hne value. split; [|done].
    by destruct (type device).
Qed.

(** C6: a change of one of the four flag attributes to the integer [v]
    publishes, retained, exactly one boolean per member of the attribute's
    flag enum, in the enum's order, on [{device}/{attribute}/{member}], the
    boolean being whether [v] and the member's value have a bit in common,
    which for a member that is the single bit [k] is bit [k] of [v].  Nothing
    is published for a bit that no member has.  With members A=1, B=2, C=4
    and [v = 0b101] the booleans are A true, B false, C true. *)
Theorem C6_flag_attributes (topic_parent : string) (device : Device) (v : Z)
    (s : Translator) :
  let flag_publications (name : string) (flags : FlagEnum) :=
    map (fun item : string * Z =>
           (topic_parent +:+ "/" +:+ name +:+ "/" +:+ fst item,
            VBool (negb (Z.land v (snd item) =? 0)), true))
        flags in
  _publish_device_property topic_parent device "characteristics" (VInt v) s
  = (published s (flag_publications "characteristics" DCFlags), Ok tt)
  /\ _publish_device_property topic_parent device "enable_status" (VInt v) s
     = (published s (flag_publications "enable_status" ESFlags), Ok tt)
  /\ _publish_device_property topic_parent device "switches" (VInt v) s
     = (published s (flag_publications "switches" SwitchFlags), Ok tt)
  /\ _publish_device_property topic_parent device "special_status" (VInt v) s
     = (published s (flag_publications "special_status" SSFlags), Ok tt)
  /\ (forall k : nat,
        negb (Z.land v (2 ^ Z.of_nat k) =? 0) = Z.testbit v (Z.of_nat k))
  /\ publish_flags topic_parent "characteristics"
                   [("A", 1); ("B", 2); ("C", 4)] (VInt 5) s
     = (published s
          [(topic_parent +:+ "/characteristics/A", VBool true, true);
           (topic_parent +:+ "/characteristics/B", VBool false, true);
           (topic_parent +:+ "/characteristics/C", VBool true, true)],
        Ok tt).
Proof.
  intros flag_publications. unfold _publish_device_property.
  repeat split.
  - destruct (is_special device); simpl; apply run_publish_flags.
  - destruct (is_special device); simpl; apply run_publish_flags.
  - destruct (is_special device); simpl; apply run_publish_flags.
  - destruct (is_special device); simpl; apply run_publish_flags.
  - apply land_pow2_testbit.
  - by rewrite run_publish_flags.
Qed.

(** ** Inbound messages *)

Lemma decode_nonempty b data text :
  decode (b :: data) = Ok text -> exists c rest, text = String c rest.
Proof.
  unfold decode. destruct (utf8_valid (b :: data)); [|done].
  intros [= <-]. simpl. eauto.
Qed.

Lemma data_text_ok b data text :
  decode (b :: data) = Ok text -> data_text (b :: data) = Ok (Some text).
Proof. intros H. unfold data_text. by rewrite H. Qed.

Lemma data_text_raise b data e :
  decode (b :: data) = Raise e -> data_text (b :: data) = Raise e.
Proof. intros H. unfold data_text. by rewrite H. Qed.

(** A message that is routed to a handler which returns is processed as the
    handler does; one whose handler raises leaves a record in the log. *)
Lemma run_process_message_ok message st s s' :
  _subscribetopics_lookup !! am_topic message = Some st ->
  on_message st message s = (s', Ok tt) ->
  process_message message s = (s', Ok tt).
Proof.
  intros Hroute Hrun. unfold process_message, try_except.
  by rewrite Hroute, Hrun.
Qed.

Lemma run_process_message_raise message st s s' e :
  _subscribetopics_lookup !! am_topic message = Some st ->
  on_message st message s = (s', Raise e) ->
  process_message message s
  = (with_records s' [processing_error message e], Ok tt).
Proof.
  intros Hroute Hrun. unfold process_message, try_except.
  by rewrite Hroute, Hrun.
Qed.

(** The loop goes on to the next turn after a delivered message, whatever
    its handler did. *)
Lemma run_async_loop_deliver message turns s s' :
  _shutdown s = false ->
  process_message message s = (s', Ok tt) ->
  async_loop (deliver message :: turns) s = async_loop turns s'.
Proof.
  intros Hrunning Hrun. simpl async_loop.
  cbv [mbind M_bind mret M_ret get_shutdown]. rewrite Hrunning.
  simpl. by rewrite Hrun.
Qed.

(** C7: a message on [{baseunit}/datetime/set], routed to the entry
    [__init__] builds for that topic, evaluated as the code is written.  An
    empty payload creates the driver call [async_set_datetime(None)], the
    current time.  A payload that is not empty never reaches the parser: if
    it does not decode the handler raises UnicodeDecodeError, and if it
    decodes the lookup [dateutil.parser] raises AttributeError, whatever the
    text.  In both cases no driver call is made, the loop catches the
    exception, logs it as an error with the topic and goes on with the next
    turn. *)
Theorem C7_set_datetime (message : ApplicationMessage) (s : Translator)
    (Htopic : am_topic message
              = slash (slash (baseunit config) TOPIC_DATETIME) TOPIC_SET)
    (Hroute : _subscribetopics_lookup !! am_topic message
              = Some datetime_subscribetopic) :
  let handler := _on_message_set_datetime datetime_subscribetopic message in
  (am_data message = [] ->
   handler s = (with_tasks s [async_set_datetime (Unparsed None)], Ok tt)
   /\ process_message message s
      = (with_tasks s [async_set_datetime (Unparsed None)], Ok tt))
  /\ (am_data message <> [] ->
      let e := match decode (am_data message) with
               | Ok _ => AttributeError
               | Raise e => e
               end in
      handler s = (s, Raise e)
      /\ process_message message s
         = (with_records s [processing_error message e], Ok tt)
      /\ driver_calls (exec (process_message message) s) = driver_calls s
      /\ forall turns,
           _shutdown s = false ->
           async_loop (deliver message :: turns) s
           = async_loop turns (with_records s [processing_error message e])).
Proof.
  intros handler.
  assert (forall s' r, handler s = (s', r) ->
            on_message datetime_subscribetopic message s = (s', r)) as Hon
    by done.
  split.
  - intros Hempty.
    assert (handler s
            = (with_tasks s [async_set_datetime (Unparsed None)], Ok tt))
      as Hrun.
    { subst handler. unfold _on_message_set_datetime. by rewrite Hempty. }
    split; [exact Hrun|].
    apply (run_process_message_ok _ datetime_subscribetopic); [done|].
    by apply Hon.
  - intros Hdata e.
    assert (handler s = (s, Raise e)) as Hrun.
    { subst handler e. unfold _on_message_set_datetime.
      destruct (am_data message) as [|b data]; [done|].
      destruct (decode (b :: data)) as [text|e] eqn:Hdec.
      - destruct (decode_nonempty b data text Hdec) as (c & rest & ->).
        by rewrite (data_text_ok b data _ Hdec).
      - by rewrite (data_text_raise b data e Hdec). }
    assert (process_message message s
            = (with_records s [processing_error message e], Ok tt)) as Hproc.
    { apply (run_process_message_raise _ datetime_subscribetopic); [done|].
      by apply Hon. }
    split; [exact Hrun|]. split; [exact Hproc|]. split.
    + unfold exec. by rewrite Hproc.
    + intros turns Hrunning. by apply run_async_loop_deliver.
Qed.

Lemma driver_calls_with_records s rs :
  driver_calls (with_records s rs) = driver_calls s.
Proof. reflexivity. Qed.

Lemma driver_calls_with_tasks s ts :
  driver_calls (with_tasks s ts)
  = driver_calls s ++ List.filter is_driver_call ts.
Proof. unfold driver_calls. simpl. apply List.filter_app. Qed.

(** C8 (amended): a message on [{baseunit}/operation_mode/set] or on a
    switch's [{switchTopic}/set], routed to the entry built for that topic,
    whose payload is empty or decodes as text.  When the name does not resolve
    against the enum the handler logs a warning and creates no task at all,
    so no driver call; when it resolves the handler creates exactly one task,
    the driver call setting the mode, respectively the boolean state of that
    switch number.  A payload that does not decode makes the handler raise
    before it logs or calls anything; the loop catches the exception and
    logs it as an error with the topic, and no task is created. *)
Theorem C8_operation_mode_and_switch (s : Translator) :
  (forall message : ApplicationMessage,
     _subscribetopics_lookup !! am_topic message
     = Some operation_mode_subscribetopic ->
     (forall name,
        data_text (am_data message) = Ok name ->
        (OperationMode_parse_name name = None ->
         process_message message s
         = (with_records s [{| levelname := WARNING;
                               msg := CannotSetOperationMode name |}], Ok tt))
        /\ (forall operation_mode,
              OperationMode_parse_name name = Some operation_mode ->
              process_message message s
              = (with_tasks s [async_set_operation_mode operation_mode],
                 Ok tt)
              /\ driver_calls (exec (process_message message) s)
                 = driver_calls s
                   ++ [async_set_operation_mode operation_mode]))
     /\ (forall e,
           data_text (am_data message) = Raise e ->
           _on_message_baseunit operation_mode_subscribetopic message s
           = (s, Raise e)
           /\ process_message message s
              = (with_records s
                   [{| levelname := ERROR;
                       msg := ExceptionProcessingMessage (am_topic message) e
                    |}], Ok tt)))
  /\ (forall (message : ApplicationMessage) (subscribetopic : SubscribeTopic)
             (switch_number : SwitchNumber),
        _subscribetopics_lookup !! am_topic message = Some subscribetopic ->
        st_on_message subscribetopic = on_message_switch ->
        st_args subscribetopic = ArgsSwitch switch_number ->
        (forall name,
           data_text (am_data message) = Ok name ->
           (OnOff_parse_name name = None ->
            process_message message s
            = (with_records s [{| levelname := WARNING;
                                  msg := CannotSetSwitch switch_number name |}],
               Ok tt))
           /\ (forall state,
                 OnOff_parse_name name = Some state ->
                 let call := async_set_switch_state switch_number
                               (match state with On => true | Off => false end)
                 in
                 process_message message s = (with_tasks s [call], Ok tt)
                 /\ driver_calls (exec (process_message message) s)
                    = driver_calls s ++ [call]))
        /\ (forall e,
              data_text (am_data message) = Raise e ->
              _on_message_switch subscribetopic message s = (s, Raise e)
              /\ process_message message s
                 = (with_records s
                      [{| levelname := ERROR;
                          msg := ExceptionProcessingMessage (am_topic message)
                                                            e |}], Ok tt))).
Proof.
  split.
  - intros message Hroute. split.
    + intros name Hname.
      assert (forall s' r,
                _on_message_baseunit operation_mode_subscribetopic message s
                = (s', r) ->
                on_message operation_mode_subscribetopic message s = (s', r))
        as Hon by done.
      split.
      * intros Hnone.
        apply (run_process_message_ok _ operation_mode_subscribetopic);
          [done|].
        apply Hon. unfold _on_message_baseunit. simpl.
        cbv [mbind M_bind lift]. by rewrite Hname, Hnone.
      * intros operation_mode Hsome.
        assert (process_message message s
                = (with_tasks s [async_set_operation_mode operation_mode],
                   Ok tt)) as Hrun.
        { apply (run_process_message_ok _ operation_mode_subscribetopic);
            [done|].
          apply Hon. unfold _on_message_baseunit. simpl.
          cbv [mbind M_bind lift]. by rewrite Hname, Hsome. }
        split; [exact Hrun|].
        unfold exec. rewrite Hrun. simpl fst.
        by rewrite driver_calls_with_tasks.
    + intros e Hraise.
      assert (_on_message_baseunit operation_mode_subscribetopic message s
              = (s, Raise e)) as Hrun.
      { unfold _on_message_baseunit. simpl.
        cbv [mbind M_bind lift]. by rewrite Hraise. }
      split; [exact Hrun|].
      by apply (run_process_message_raise _ operation_mode_subscribetopic).
  - intros message st switch_number Hroute Hhandler Hargs. split.
    + intros name Hname.
      assert (forall s' r,
                _on_message_switch st message s = (s', r) ->
                on_message st message s = (s', r)) as Hon
        by (intros s' r; unfold on_message; by rewrite Hhandler).
      split.
      * intros Hnone. apply (run_process_message_ok _ st); [done|].
        apply Hon. unfold _on_message_switch. rewrite Hargs.
        cbv [mbind M_bind lift]. by rewrite Hname, Hnone.
      * intros state Hsome call.
        assert (process_message message s = (with_tasks s [call], Ok tt))
          as Hrun.
        { apply (run_process_message_ok _ st); [done|].
          apply Hon. unfold _on_message_switch. rewrite Hargs.
          cbv [mbind M_bind lift]. rewrite Hname, Hsome.
          subst call. by destruct state. }
        split; [exact Hrun|].
        unfold exec. rewrite Hrun. simpl fst.
        by rewrite driver_calls_with_tasks.
    + intros e Hraise.
      assert (_on_message_switch st message s = (s, Raise e)) as Hrun.
      { unfold _on_message_switch. rewrite Hargs.
        cbv [mbind M_bind lift]. by rewrite Hraise. }
      split; [exact Hrun|].
      apply (run_process_message_raise _ st); [done|].
      unfold on_message. by rewrite Hhandler.
Qed.

(** ** Discovery documents *)




Lemma length_hex_digits_pos fuel n acc :
  (String.length acc < String.length (hex_digits (S fuel) n acc))%nat.
Proof.
  revert n acc. induction fuel as [|fuel IH]; intros n acc.
  - simpl. destruct (n / 16 =? 0); simpl; lia.
  - change (hex_digits (S (S fuel)) n acc)
      with (let acc' := String (hex_digit (n mod 16)) acc in
            if n / 16 =? 0 then acc' else hex_digits (S fuel) (n / 16) acc').
    cbv zeta. destruct (n / 16 =? 0); [simpl; lia|].
    specialize (IH (n / 16) (String (hex_digit (n mod 16)) acc)).
    simpl String.length in IH at 1. lia.
Qed.




(** ** Device added *)

Lemma run_attach_callbacks id s :
  attach_callbacks id s
  = ({| tasks := tasks s; records := records s; now := now s;
        scheduled := scheduled s; next_handle := next_handle s;
        _auto_reset_handles := _auto_reset_handles s;
        _shutdown := _shutdown s;
        callbacks := {[id]} ∪ callbacks s |}, Ok tt).
Proof. reflexivity. Qed.

(** C10: when discovery is configured and the device has no config entry,
    the device-added handler attaches the callbacks, publishes nothing and
    raises AttributeError; hence the handler returns without error only when
    the device has a config entry or discovery is off. *)
Theorem C10_device_added_without_config (device : Device) (s : Translator) :
  (truthy_str (ha_discovery_prefix config) = true ->
   devices config !! device_id device = None ->
   _baseunit_device_added device s
   = ({| tasks := tasks s; records := records s; now := now s;
         scheduled := scheduled s; next_handle := next_handle s;
         _auto_reset_handles := _auto_reset_handles s;
         _shutdown := _shutdown s;
         callbacks := {[device_id device]} ∪ callbacks s |},
      Raise AttributeError))
  /\ (returned (_baseunit_device_added device) s = Ok tt ->
      is_Some (devices config !! device_id device)
      \/ truthy_str (ha_discovery_prefix config) = false).
Proof.
  assert (truthy_str (ha_discovery_prefix config) = true ->
          devices config !! device_id device = None ->
          _baseunit_device_added device s
          = ({| tasks := tasks s; records := records s; now := now s;
                scheduled := scheduled s; next_handle := next_handle s;
                _auto_reset_handles := _auto_reset_handles s;
                _shutdown := _shutdown s;
                callbacks := {[device_id device]} ∪ callbacks s |},
             Raise AttributeError)) as Hraise.
  { intros Hprefix Hnone. unfold _baseunit_device_added.
    rewrite Hnone, Hprefix.
    erewrite run_bind by apply run_attach_callbacks.
    erewrite run_bind by reflexivity. reflexivity. }
  split; [exact Hraise|].
  intros Hok.
  destruct (devices config !! device_id device) as [dc|] eqn:Hdc; [left; eauto|].
  right. destruct (truthy_str (ha_discovery_prefix config)) eqn:Hprefix;
    [|done].
  unfold returned in Hok. rewrite (Hraise eq_refl eq_refl) in Hok.
  discriminate Hok.
Qed.

(** ** What a piece of code leaves alone *)

Lemma preserves_bind {A B X : Type} (f : Translator -> X) (m : M A)
    (k : A -> M B) :
  preserves f m -> (forall a, preserves f (k a)) -> preserves f (m ≫= k).
Proof.
  intros Hm Hk s. specialize (Hm s). unfold exec, mbind, M_bind in *.
  destruct (m s) as [s1 [a|e]]; simpl in Hm; [|exact Hm].
  specialize (Hk a s1). unfold exec in Hk. congruence.
Qed.

Lemma preserves_try_except {A X : Type} (f : Translator -> X) (m : M A)
    (h : exn -> M A) :
  preserves f m -> (forall e, preserves f (h e)) ->
  preserves f (try_except m h).
Proof.
  intros Hm Hh s. specialize (Hm s). unfold exec, try_except in *.
  destruct (m s) as [s1 [a|e]]; simpl in Hm; [exact Hm|].
  specialize (Hh e s1). unfold exec in Hh. congruence.
Qed.

Lemma preserves_for_each {A X : Type} (f : Translator -> X)
    (body : A -> M unit) (l : list A) :
  (forall a, preserves f (body a)) -> preserves f (for_each body l).
Proof.
  intros Hbody. induction l as [|a l IH]; simpl; [done|].
  apply preserves_bind; [apply Hbody | intros _; exact IH].
Qed.

(** Walk through a body: binds, loops and branches; a primitive has to leave
    the observation alone by computation. *)
Ltac preserves_walk :=
  repeat first
    [ apply preserves_bind; [|intros]
    | apply preserves_try_except; [|intros]
    | apply preserves_for_each; intros
    | match goal with
      | |- preserves _ (match ?x with _ => _ end) => destruct x
      | |- preserves _ (if ?b then _ else _) => destruct b
      end
    | done
    | by intros ? ].

(** ** The dispatch loop *)



Lemma process_message_returns message s :
  returned (process_message message) s = Ok tt.
Proof.
  unfold returned, process_message, try_except.
  destruct (match _subscribetopics_lookup !! am_topic message with
            | Some st => on_message st message
            | None => raise KeyError
            end s) as [s' [[]|e]]; done.
Qed.

Lemma run_process_message message s :
  process_message message s = (exec (process_message message) s, Ok tt).
Proof.
  pose proof (process_message_returns message s) as H.
  unfold returned, exec in *. destruct (process_message message s). simpl in *.
  by subst.
Qed.


(** X1: the dispatch loop never lets an exception out: whatever the turns
    and whatever the handlers raise, [async_loop] returns. *)
Theorem async_loop_never_raises (turns : list Turn) (s : Translator) :
  returned (async_loop turns) s = Ok tt.
Proof.
  revert s. induction turns as [|turn turns IH]; intros s; [done|].
  unfold returned in *. simpl async_loop.
  cbv [mbind M_bind get_shutdown signal_shutdown set_shutdown mret M_ret].
  destruct (_shutdown s); [done|].
  destruct (sigint turn), (outcome turn) as [| |message]; simpl;
    try apply IH; rewrite run_process_message; apply IH.
Qed.


(** X3: what the loop does with a turn that brings no servable message, the
    flag being clear.  A timeout changes nothing.  A failed delivery leaves
    one error record.  A message on a topic that has no entry in the lookup
    creates no task and leaves one error record, for the KeyError of the
    lookup.  In each case the loop goes on with the next turn. *)
Theorem async_loop_skips_faults (turns : list Turn) (s : Translator)
    (Hrunning : _shutdown s = false) :
  async_loop ({| sigint := false; outcome := TimeoutError |} :: turns) s
  = async_loop turns s
  /\ async_loop ({| sigint := false; outcome := DeliverException |} :: turns) s
     = async_loop turns
         (with_records s [{| levelname := ERROR;
                             msg := ExceptionWaitingForMessage |}])
  /\ (forall message,
        _subscribetopics_lookup !! am_topic message = None ->
        async_loop (deliver message :: turns) s
        = async_loop turns
            (with_records s [processing_error message KeyError])).
Proof.
  split; [|split].
  - simpl async_loop. cbv [mbind M_bind get_shutdown]. by rewrite Hrunning.
  - simpl async_loop. cbv [mbind M_bind get_shutdown]. by rewrite Hrunning.
  - intros message Hnone. apply run_async_loop_deliver; [done|].
    unfold process_message, try_except. by rewrite Hnone.
Qed.

(** ** Stopping *)

Lemma stop_loop_registry (l : list (Z * nat)) : forall s,
  NoDup (l.*1) ->
  (forall k h, In (k, h) l -> _auto_reset_handles s !! k = Some h) ->
  let body := fun item : Z * nat =>
                cancel (snd item);; pop_handle (fst item);; mret tt in
  forall k,
    _auto_reset_handles (exec (for_each body l) s) !! k
    = if decide (k ∈ l.*1) then None else _auto_reset_handles s !! k.
Proof.
  induction l as [|[k0 h0] l IH]; intros s Hnd Hl body k.
  - by rewrite decide_False by apply not_elem_of_nil.
  - apply NoDup_cons in Hnd as [Hk0 Hnd].
    assert (_auto_reset_handles s !! k0 = Some h0) as Hreg
      by (apply Hl; by left).
    pose proof (run_cancel_pop k0 h0 s Hreg) as Hrun.
    unfold exec. simpl for_each. subst body. simpl fst; simpl snd.
    erewrite run_bind by exact Hrun.
    match goal with
    | |- _auto_reset_handles (fst (for_each ?b l ?s1)) !! k = _ =>
      pose proof (IH s1 Hnd) as IH'
    end.
    unfold exec in IH'. rewrite IH'.
    + simpl _auto_reset_handles. rewrite fmap_cons. simpl fst.
      destruct (decide (k = k0)) as [->|Hne].
      * rewrite decide_False by done.
        rewrite lookup_delete_eq. rewrite decide_True; [done|by left].
      * rewrite lookup_delete_ne by done.
        destruct (decide (k ∈ l.*1)) as [Hin|Hnin].
        -- rewrite decide_True; [done|by right].
        -- rewrite decide_False; [done|].
           intros [?|?]%elem_of_cons; done.
    + intros k' h' Hin. simpl. rewrite lookup_delete_ne.
      * apply Hl. by right.
      * intros <-. apply Hk0.
        apply (list_elem_of_fmap_2' fst l (k0, h')); [|done].
        by apply list_elem_of_In.
Qed.

Lemma tasks_async_stop : preserves tasks async_stop.
Proof. unfold async_stop, pop_handle. preserves_walk. Qed.

Lemma records_async_stop : preserves records async_stop.
Proof. unfold async_stop, pop_handle. preserves_walk. Qed.

(** X4: stopping the translator in any state it can reach cancels every
    timer: the registry is empty afterwards, no device has a timer that will
    fire, nothing is published (no off is forced) or logged, and nothing is
    raised. *)
Theorem async_stop_cancels_all (s : Translator) (Hs : reachable s) :
  returned async_stop s = Ok tt
  /\ _auto_reset_handles (exec async_stop s) = ∅
  /\ (forall id, live_timers id (exec async_stop s) = [])
  /\ tasks (exec async_stop s) = tasks s
  /\ records (exec async_stop s) = records s.
Proof.
  pose proof (timers_wf_reachable s Hs) as Hwf.
  destruct (timers_wf_async_stop s Hwf) as [Hwf' Hret].
  assert (_auto_reset_handles (exec async_stop s) = ∅) as Hempty.
  { apply map_eq. intros k. rewrite lookup_empty.
    unfold async_stop, exec. erewrite run_bind by reflexivity.
    pose proof (stop_loop_registry (map_to_list (_auto_reset_handles s)) s
                  (NoDup_fst_map_to_list _)) as Hreg.
    unfold exec in Hreg. rewrite Hreg.
    - destruct (decide (k ∈ (map_to_list (_auto_reset_handles s)).*1))
        as [|Hnin]; [done|].
      destruct (_auto_reset_handles s !! k) as [h|] eqn:Hk; [|done].
      exfalso. apply Hnin.
      apply (list_elem_of_fmap_2' fst _ (k, h)); [|done].
      by apply elem_of_map_to_list.
    - intros k' h' Hin. by apply elem_of_map_to_list, list_elem_of_In. }
  split; [exact Hret|]. split; [exact Hempty|]. split.
  - intros id. apply filter_none. intros t Hin.
    destruct (th_cancelled t) eqn:Hc; [by rewrite andb_false_r|].
    pose proof (wf_live _ Hwf' t Hin Hc) as Hreg.
    rewrite Hempty, lookup_empty in Hreg. discriminate Hreg.
  - split; [apply tasks_async_stop | apply records_async_stop].
Qed.

(** ** Firing and re-arming *)

(** X5: [_auto_reset] pops the registry without a default.  In a state where
    the registry holds no handle for the device it publishes off (when the
    device has a topic) and then raises KeyError.  In the states the
    translator can reach this does not happen: running a timer, under any
    handle, returns. *)
Theorem auto_reset_pop (s : Translator) :
  (forall id,
     _auto_reset_handles s !! id = None ->
     _auto_reset id s
     = (published s (auto_reset_publication id), Raise KeyError))
  /\ (reachable s -> forall h, returned (run_timer h) s = Ok tt).
Proof.
  split.
  - intros id Hnone. unfold _auto_reset, auto_reset_publication.
    destruct (devices config !! id) as [dc|].
    + destruct (dc_topic dc) as [[|c topic]|];
        cbv [mbind M_bind mret M_ret pop_handle get_handles];
        simpl; rewrite Hnone; rewrite ?published_nil; reflexivity.
    + cbv [mbind M_bind mret M_ret pop_handle get_handles]; simpl.
      rewrite Hnone. by rewrite published_nil.
  - intros Hs h. pose proof (timers_wf_reachable s Hs) as Hwf.
    unfold returned.
    destruct (find (timer_ready (now s) h) (scheduled s)) as [t|] eqn:Hfind.
    + by rewrite (run_timer_ready h t s Hwf Hfind).
    + unfold run_timer. by rewrite Hfind.
Qed.

Lemma find_cancelled h clock (l : list TimerHandle) t :
  th_id t <> h ->
  find (timer_ready clock h) (map (cancel_timer h) l ++ [t]) = None.
Proof.
  intros Hne. rewrite find_app_none.
  - simpl. unfold timer_ready.
    apply Nat.eqb_neq in Hne. by rewrite Hne.
  - intros t0 (t1 & _ & ->)%in_cancel_timer. unfold timer_ready, cancel_timer.
    destruct (Nat.eqb_spec (th_id t1) h) as [Heq|Hne1]; simpl.
    + rewrite Heq, Nat.eqb_refl. done.
    + apply Nat.eqb_neq in Hne1. by rewrite Hne1.
Qed.

(** X6: a cancelled timer never fires.  After a Trigger event, the clock
    moving on by [d], and a second Trigger event, the loop running the first
    handle changes nothing, however far the clock has moved on since: the
    only off that can follow is the one of the second timer. *)
Theorem retrigger_cancels_first_timer (device : Device)
    (dc : TranslatorDeviceConfig) (c : ascii) (rest : string)
    (d e : Z) (s : Translator)
    (Hdc : devices config !! device_id device = Some dc)
    (Htopic : dc_topic dc = Some (String c rest)) :
  let s1 := exec (_device_on_event device Trigger) s in
  let s2 := exec (_device_on_event device Trigger) (exec (advance d) s1) in
  _auto_reset_handles s1 !! device_id device = Some (next_handle s)
  /\ run_timer (next_handle s) (exec (advance e) s2)
     = (exec (advance e) s2, Ok tt).
Proof.
  intros s1 s2.
  pose proof (run_device_on_event_trigger device dc c rest s Hdc Htopic)
    as Hrun1.
  assert (_auto_reset_handles s1 !! device_id device = Some (next_handle s))
    as Hreg.
  { subst s1. unfold exec. rewrite Hrun1. simpl.
    by rewrite lookup_insert_eq. }
  split; [exact Hreg|].
  pose proof (run_device_on_event_trigger device dc c rest
                (exec (advance d) s1) Hdc Htopic) as Hrun2.
  unfold run_timer.
  replace (scheduled (exec (advance e) s2))
    with (map (cancel_timer (next_handle s)) (scheduled s1)
          ++ [new_timer (exec (advance d) s1) (auto_reset_delay dc)
                        (device_id device)]).
  - rewrite find_cancelled; [done|].
    subst s1. unfold exec. rewrite Hrun1. simpl. lia.
  - subst s2. unfold exec at 2 3. rewrite Hrun2. simpl scheduled.
    simpl _auto_reset_handles. by rewrite Hreg.
Qed.

(** ** Devices without topic *)

(** X7: a device that has no config entry, or whose entry has no topic or an
    empty one, is ignored: its events, Trigger included, and its property
    changes leave the whole state as it was, so nothing is published and no
    timer is armed. *)
Theorem device_without_topic_is_ignored (device : Device) (s : Translator)
    (Hnone : forall dc, devices config !! device_id device = Some dc ->
                        truthy_str (dc_topic dc) = false) :
  (forall event_code, _device_on_event device event_code s = (s, Ok tt))
  /\ (forall changes,
        _device_on_properties_changed device changes s = (s, Ok tt)).
Proof.
  split.
  - intros event_code. by apply run_device_on_event_no_topic.
  - intros changes. unfold _device_on_properties_changed.
    destruct (devices config !! device_id device) as [dc|]; [|done].
    specialize (Hnone dc eq_refl).
    by destruct (dc_topic dc) as [[|c topic]|].
Qed.

(** X8: only Trigger touches the timers.  Any other event code of a device
    with a topic publishes the code and leaves the schedule, the registry
    and the clock as they were: an armed timer stays armed, with its
    deadline. *)
Theorem other_event_keeps_timer (device : Device) (name : string)
    (s : Translator) :
  scheduled (exec (_device_on_event device (OtherEventCode name)) s)
  = scheduled s
  /\ _auto_reset_handles
       (exec (_device_on_event device (OtherEventCode name)) s)
     = _auto_reset_handles s
  /\ (forall id,
        live_timers id (exec (_device_on_event device (OtherEventCode name)) s)
        = live_timers id s).
Proof.
  assert (scheduled (exec (_device_on_event device (OtherEventCode name)) s)
          = scheduled s
          /\ _auto_reset_handles
               (exec (_device_on_event device (OtherEventCode name)) s)
             = _auto_reset_handles s) as [Hsched Hreg].
  { unfold exec.
    destruct (devices config !! device_id device) as [dc|] eqn:Hdc.
    - destruct (dc_topic dc) as [[|c topic]|] eqn:Htopic.
      + rewrite run_device_on_event_no_topic; [done|].
        intros dc' Hdc'. rewrite Hdc in Hdc'. injection Hdc' as <-.
        by rewrite Htopic.
      + by erewrite run_device_on_event_other by eassumption.
      + rewrite run_device_on_event_no_topic; [done|].
        intros dc' Hdc'. rewrite Hdc in Hdc'. injection Hdc' as <-.
        by rewrite Htopic.
    - rewrite run_device_on_event_no_topic; [done|].
      intros dc' Hdc'. by rewrite Hdc in Hdc'. }
  split; [exact Hsched|]. split; [exact Hreg|].
  intros id. by apply live_timers_same.
Qed.

(** ** Further device attributes *)

Lemma eqb_not_in (name : string) (l : list string) (x : string) :
  ~ In name l -> In x l -> String.eqb name x = false.
Proof.
  intros Hnin Hin. apply String.eqb_neq. intros ->. by apply Hnin.
Qed.

(** X9: an attribute name that has no branch publishes nothing, for any
    device and any value, and nothing is raised. *)
Theorem unlisted_device_property (topic_parent : string) (device : Device)
    (name : string) (value : pyvalue) (s : Translator)
    (Hname : ~ In name device_property_names) :
  _publish_device_property topic_parent device name value s = (s, Ok tt).
Proof.
  unfold _publish_device_property.
  assert (forall x, In x device_property_names -> String.eqb name x = false)
    as Hne by (intros x; by apply eqb_not_in).
  rewrite !Hne by (unfold device_property_names; simpl; tauto).
  rewrite !andb_false_r. cbn [existsb].
  rewrite !Hne by (unfold device_property_names; simpl; tauto).
  reflexivity.
Qed.

(** X10: the category attribute.  Of the pairs its [as_dict()] gives, those
    under code and description are published, retained, on
    [{device}/category/{key}], in the order of the dict, and no other; a value
    without [as_dict] (such as None) raises AttributeError and publishes
    nothing. *)
Theorem category_publications (topic_parent : string) (device : Device)
    (s : Translator) :
  (forall as_dict,
     _publish_device_property topic_parent device Device_PROP_CATEGORY
                              (VCategory as_dict) s
     = (published s
          (map (fun prop : string * pyvalue =>
                  (topic_parent +:+ "/category/" +:+ fst prop, snd prop, true))
               (List.filter
                  (fun prop : string * pyvalue =>
                     String.eqb (fst prop) "code"
                     || String.eqb (fst prop) "description")
                  as_dict)), Ok tt))
  /\ _publish_device_property topic_parent device Device_PROP_CATEGORY VNone s
     = (s, Raise AttributeError).
Proof.
  assert (forall value,
            _publish_device_property topic_parent device Device_PROP_CATEGORY
                                     value
            = match value with
              | VCategory as_dict =>
                for_each
                  (fun prop : string * pyvalue =>
                     if existsb (String.eqb (fst prop)) ["code"; "description"]
                     then _publish (slash (slash topic_parent
                                                 Device_PROP_CATEGORY)
                                          (fst prop)) (snd prop) true
                     else mret tt)
                  as_dict
              | _ => raise AttributeError
              end) as Hbranch.
  { intros value. unfold _publish_device_property.
    destruct (is_special device); reflexivity. }
  split; [|by rewrite Hbranch].
  intros as_dict. rewrite Hbranch. revert s.
  induction as_dict as [|[k v] as_dict IH]; intros s; simpl for_each.
  - cbn [List.filter map]. rewrite published_nil. reflexivity.
  - cbn [List.filter existsb fst snd]. rewrite orb_false_r.
    destruct (String.eqb k "code" || String.eqb k "description").
    + erewrite run_bind by apply run_publish.
      rewrite IH, published_app. simpl map. simpl app.
      rewrite slash_slash. reflexivity.
    + erewrite run_bind by reflexivity. apply IH.
Qed.

(** X11: the two device-topic attributes are tied to the kind of device.
    The current reading of a special device is published as it is, retained,
    on the device's topic.  [is_closed] of a special device and
    [current_reading] of a device that is not special publish nothing. *)
Theorem device_topic_attributes (topic_parent : string) (device : Device)
    (value : pyvalue) (s : Translator) :
  (is_special device = true ->
   _publish_device_property topic_parent device
                            SpecialDevice_PROP_CURRENT_READING value s
   = (published s [(topic_parent, value, true)], Ok tt)
   /\ _publish_device_property topic_parent device Device_PROP_IS_CLOSED
                               value s
      = (s, Ok tt))
  /\ (is_special device = false ->
      _publish_device_property topic_parent device
                               SpecialDevice_PROP_CURRENT_READING value s
      = (s, Ok tt)).
Proof.
  unfold _publish_device_property.
  split; intros ->; [split|]; reflexivity.
Qed.

Lemma run_publish_flags_none topic_parent name (flags : FlagEnum) s :
  publish_flags topic_parent name flags VNone s
  = (s, match flags with
        | [] => Ok tt
        | _ :: _ => Raise TypeError
        end).
Proof. destruct flags as [|item flags]; reflexivity. Qed.

(** X12: a flag attribute whose value is None.  [None & member.value] raises
    TypeError at the first member of the attribute's enum, before anything is
    published; only with an enum that has no member does the change pass. *)
Theorem flag_attribute_none (topic_parent : string) (device : Device)
    (s : Translator) :
  let outcome (flags : FlagEnum) : Translator * result unit :=
    (s, match flags with
        | [] => Ok tt
        | _ :: _ => Raise TypeError
        end) in
  _publish_device_property topic_parent device Device_PROP_CHARACTERISTICS
                           VNone s = outcome DCFlags
  /\ _publish_device_property topic_parent device Device_PROP_ENABLE_STATUS
                              VNone s = outcome ESFlags
  /\ _publish_device_property topic_parent device Device_PROP_SWITCHES
                              VNone s = outcome SwitchFlags
  /\ _publish_device_property topic_parent device
                              SpecialDevice_PROP_SPECIAL_STATUS
                              VNone s = outcome SSFlags.
Proof.
  intros outcome. unfold _publish_device_property.
  repeat split;
    destruct (is_special device); simpl; apply run_publish_flags_none.
Qed.

End Translator.

(** ** The claims at the sample installation *)

(** C1 at the sample door, from the initial state: two Trigger events five
    ticks apart leave one timer that will fire, at tick 15. *)
Lemma C1_one_live_timer_per_device_witness :
  (length (live_timers Z 0x12ab34 (init Z)) <= 1)%nat
  /\ live_timers Z 0x12ab34
       (exec Z (_device_on_event Z sample_config sample_door Trigger)
          (exec Z (advance Z 5)
             (exec Z (_device_on_event Z sample_config sample_door Trigger)
                (init Z))))
     = [{| th_id := 1; th_when := 15; th_arg := 0x12ab34;
           th_cancelled := false |}].
Proof.
  pose proof (C1_one_live_timer_per_device Z
                sample_parse_mode sample_parse_onoff
                sample_flags sample_flags sample_flags sample_flags
                "lifesospy_mqtt" sample_config (init Z)
                (reachable_init Z sample_parse_mode
                   sample_parse_onoff sample_flags sample_flags sample_flags
                   sample_flags "lifesospy_mqtt" sample_config))
    as [Hone Htwice].
  split; [apply Hone|].
  specialize (Htwice sample_door
                {| dc_topic := Some "lifesos/door"; dc_ha_name := Some "Door";
                   dc_auto_reset_interval := Some 10 |}
                "l"%char "ifesos/door" 5 eq_refl eq_refl ltac:(lia)).
  destruct Htwice as (_ & _ & Hlive & _). exact Hlive.
Defined.

(** C2 at the sample door, whose interval is 10: a Trigger event in the
    initial state publishes the code and on, and the timer run at tick 10
    publishes off on the door's topic. *)
Lemma C2_device_event_witness :
  publications Z
    (exec Z (_device_on_event Z sample_config sample_door Trigger) (init Z))
  = [("lifesos/door/event_code", VDeviceEventCode Trigger, false);
     ("lifesos/door", VOnOff On, true)]
  /\ publications Z
       (exec Z (run_timer Z sample_config 0)
          (exec Z (advance Z 10)
             (exec Z (_device_on_event Z sample_config sample_door Trigger)
                (init Z))))
     = [("lifesos/door/event_code", VDeviceEventCode Trigger, false);
        ("lifesos/door", VOnOff On, true);
        ("lifesos/door", VOnOff Off, true)].
Proof.
  pose proof (C2_device_event Z
                sample_parse_mode sample_parse_onoff
                sample_flags sample_flags sample_flags sample_flags
                "lifesospy_mqtt" sample_config sample_door
                {| dc_topic := Some "lifesos/door"; dc_ha_name := Some "Door";
                   dc_auto_reset_interval := Some 10 |}
                "l"%char "ifesos/door" Trigger (init Z) eq_refl eq_refl
                (reachable_init Z sample_parse_mode
                   sample_parse_onoff sample_flags sample_flags sample_flags
                   sample_flags "lifesospy_mqtt" sample_config))
    as (_ & Hon & _ & _ & _ & _ & Hfire).
  split; [exact Hon|].
  destruct (Hfire 10 ltac:(lia) ltac:(simpl; lia)) as (_ & Hoff & _).
  exact Hoff.
Defined.

(** C4, as the claim states it, fails: an Event record that carries no event
    code yields the event publication alone, where the claim also lists a
    publication on [{baseunit}/event_code]. *)
Lemma C4_baseunit_event_counterexample :
  let contact_id :=
    {| event_qualifier := Event;
       event_category := OtherCategory "Open_Close";
       event_code := None;
       contact_as_dict := [("event_qualifier", VStr "Event")] |} in
  publications Z (exec Z (_baseunit_event Z sample_config contact_id) (init Z))
  = [("lifesos/event", VJson [("event_qualifier", VStr "Event")], false)]
  /\ publications Z
       (exec Z (_baseunit_event Z sample_config contact_id) (init Z))
     <> spec_baseunit_event sample_config contact_id.
Proof.
  split; [reflexivity|]. vm_compute. discriminate.
Qed.

(** C5 at the sample door (closed) and at the sample remote controller,
    which is no door: true reads closed on the one, off on the other. *)
Lemma C5_is_closed_witness :
  (_publish_device_property Z sample_flags sample_flags sample_flags
     sample_flags "lifesos/door" sample_door "is_closed" (VBool true) (init Z)
   = (published Z (init Z) [("lifesos/door", VOpenClosed Closed, true)],
      Ok tt)
   /\ payload_text (VOpenClosed Closed) = Some "closed")
  /\ (_publish_device_property Z sample_flags sample_flags sample_flags
        sample_flags "lifesos/remote" sample_remote "is_closed" (VBool true)
        (init Z)
      = (published Z (init Z) [("lifesos/remote", VOnOff Off, true)], Ok tt)
      /\ payload_text (VOnOff Off) = Some "off").
Proof.
  split.
  - destruct (C5_is_closed Z sample_flags sample_flags sample_flags
                sample_flags "lifesos/door" sample_door (init Z) eq_refl)
      as [Hdoor _].
    exact (Hdoor eq_refl true).
  - destruct (C5_is_closed Z sample_flags sample_flags sample_flags
                sample_flags "lifesos/remote" sample_remote (init Z) eq_refl)
      as [_ Hother].
    apply Hother. discriminate.
Defined.

(** C7 at the sample installation: an empty payload asks for the current
    time; the payload 2018-07-01, a date, is not forwarded: the handler
    raises AttributeError, the loop logs the error and serves the next
    message. *)
Lemma C7_set_datetime_witness :
  let run := process_message Z sample_parse_mode sample_parse_onoff
               sample_config in
  let loop := async_loop Z sample_parse_mode sample_parse_onoff
                sample_config in
  let empty := {| am_topic := "lifesos/datetime/set"; am_data := [] |} in
  let date := {| am_topic := "lifesos/datetime/set";
                 am_data := list_byte_of_string "2018-07-01" |} in
  run empty (init Z)
  = (with_tasks Z (init Z) [async_set_datetime Z (Unparsed Z None)], Ok tt)
  /\ _on_message_set_datetime Z (datetime_subscribetopic sample_config) date
       (init Z)
     = (init Z, Raise AttributeError)
  /\ loop [deliver date; deliver empty] (init Z)
     = loop [deliver empty]
         (with_records Z (init Z) [processing_error date AttributeError]).
Proof.
  intros run loop empty date.
  pose proof (C7_set_datetime Z sample_parse_mode sample_parse_onoff
                sample_config) as H.
  split; [|split].
  - destruct (H empty (init Z) eq_refl eq_refl) as (Hempty & _).
    by destruct (Hempty eq_refl).
  - destruct (H date (init Z) eq_refl eq_refl) as (_ & Hdate).
    destruct (Hdate ltac:(discriminate)) as (Hrun & _).
    exact Hrun.
  - destruct (H date (init Z) eq_refl eq_refl) as (_ & Hdate).
    destruct (Hdate ltac:(discriminate)) as (_ & _ & _ & Hloop).
    exact (Hloop [deliver empty] eq_refl).
Defined.

(** C8 at the sample installation: the name Home sets the mode, the name
    maybe is no switch state and only leaves a warning, and the byte 0xFF,
    which is no text, leaves the loop's error record and nothing else. *)
Lemma C8_operation_mode_and_switch_witness :
  let run := process_message Z sample_parse_mode sample_parse_onoff
               sample_config in
  run {| am_topic := "lifesos/operation_mode/set";
         am_data := list_byte_of_string "Home" |} (init Z)
  = (with_tasks Z (init Z) [async_set_operation_mode Z ModeHome], Ok tt)
  /\ run {| am_topic := "lifesos/sw1/set";
            am_data := list_byte_of_string "maybe" |} (init Z)
     = (with_records Z (init Z)
          [{| levelname := WARNING;
              msg := CannotSetSwitch 1 (Some "maybe") |}], Ok tt)
  /\ run {| am_topic := "lifesos/operation_mode/set"; am_data := [xff] |}
         (init Z)
     = (with_records Z (init Z)
          [{| levelname := ERROR;
              msg := ExceptionProcessingMessage "lifesos/operation_mode/set"
                                                UnicodeDecodeError |}], Ok tt).
Proof.
  intros run.
  destruct (C8_operation_mode_and_switch Z sample_parse_mode
              sample_parse_onoff sample_config (init Z))
    as [Hmode Hswitch].
  split; [|split].
  - destruct (Hmode {| am_topic := "lifesos/operation_mode/set";
                       am_data := list_byte_of_string "Home" |} eq_refl)
      as [Hname _].
    destruct (Hname (Some "Home") eq_refl) as [_ Hsome].
    by destruct (Hsome ModeHome eq_refl).
  - destruct (Hswitch {| am_topic := "lifesos/sw1/set";
                         am_data := list_byte_of_string "maybe" |}
                {| st_topic := "lifesos/sw1/set";
                   st_on_message := on_message_switch;
                   st_args := ArgsSwitch 1 |} 1 eq_refl eq_refl eq_refl)
      as [Hname _].
    destruct (Hname (Some "maybe") eq_refl) as [Hnone _].
    exact (Hnone eq_refl).
  - destruct (Hmode {| am_topic := "lifesos/operation_mode/set";
                       am_data := [xff] |} eq_refl) as [_ Hraise].
    by destruct (Hraise UnicodeDecodeError eq_refl).
Defined.

(** C8, as the claim states it, fails: the one-byte payload 0xFF on
    [{baseunit}/operation_mode/set] resolves to no operation mode, yet the
    handler logs no warning: it raises, and what the loop then logs is an
    error. *)
Lemma C8_operation_mode_and_switch_counterexample :
  let message := {| am_topic := "lifesos/operation_mode/set";
                    am_data := [xff] |} in
  let handled := _on_message_baseunit Z sample_parse_mode
                   (operation_mode_subscribetopic sample_config) message
                   (init Z) in
  let processed := process_message Z sample_parse_mode
                     sample_parse_onoff sample_config message (init Z) in
  (forall name operation_mode,
     data_text (am_data message) = Ok name ->
     sample_parse_mode name <> Some operation_mode)
  /\ handled = (init Z, Raise UnicodeDecodeError)
  /\ ~ (exists r, In r (records Z (fst handled)) /\ levelname r = WARNING)
  /\ ~ (exists r, In r (records Z (fst processed)) /\ levelname r = WARNING).
Proof.
  repeat split.
  - intros name operation_mode Hname. discriminate Hname.
  - intros (r & Hin & _). exact Hin.
  - intros (r & Hin & Hlevel). vm_compute in Hin.
    destruct Hin as [<-|[]]. discriminate Hlevel.
Qed.


(** C10 at the sample installation, where discovery is on: the remote
    controller has no config entry, so adding it attaches its callbacks and
    raises. *)
Lemma C10_device_added_without_config_witness :
  returned Z
    (_baseunit_device_added Z sample_flags sample_flags sample_flags
       sample_flags "lifesospy_mqtt" sample_config sample_remote) (init Z)
  = Raise AttributeError
  /\ tasks Z
       (exec Z
          (_baseunit_device_added Z sample_flags sample_flags sample_flags
             sample_flags "lifesospy_mqtt" sample_config sample_remote)
          (init Z)) = [].
Proof.
  destruct (C10_device_added_without_config Z sample_flags sample_flags
              sample_flags sample_flags "lifesospy_mqtt" sample_config
              sample_remote (init Z)) as [Hraise _].
  unfold returned, exec. by rewrite (Hraise eq_refl eq_refl).
Defined.


Lemma async_loop_skips_faults_witness :
  let loop := async_loop Z sample_parse_mode
                sample_parse_onoff sample_config in
  let stray := {| am_topic := "lifesos/unknown"; am_data := [] |} in
  loop [deliver stray] (init Z)
  = loop [] (with_records Z (init Z) [processing_error stray KeyError]).
Proof.
  intros loop stray.
  destruct (async_loop_skips_faults Z
              sample_parse_mode sample_parse_onoff sample_config
              [] (init Z) eq_refl) as (_ & _ & Hstray).
  exact (Hstray stray eq_refl).
Defined.

(** X4 at the sample installation: the door's timer, armed by a Trigger
    event, will no longer fire after the stop. *)
Lemma async_stop_cancels_all_witness :
  let armed_state :=
    exec Z (_device_on_event Z sample_config sample_door Trigger) (init Z) in
  live_timers Z 0x12ab34 (exec Z (async_stop Z) armed_state) = []
  /\ publications Z (exec Z (async_stop Z) armed_state)
     = publications Z armed_state.
Proof.
  intros armed_state.
  destruct (async_stop_cancels_all Z sample_parse_mode
              sample_parse_onoff sample_flags sample_flags sample_flags
              sample_flags "lifesospy_mqtt" sample_config armed_state)
    as (_ & _ & Hlive & Htasks & _).
  - eapply reachable_step; [apply reachable_init|].
    apply step_device_on_event.
  - split; [apply Hlive|]. unfold publications. by rewrite Htasks.
Defined.

(** X5 and X6 at the sample installation. *)
Lemma auto_reset_pop_witness :
  _auto_reset Z sample_config 0x12ab34 (init Z)
  = (published Z (init Z) [("lifesos/door", VOnOff Off, true)],
     Raise KeyError).
Proof.
  destruct (auto_reset_pop Z sample_parse_mode
              sample_parse_onoff sample_flags sample_flags sample_flags
              sample_flags "lifesospy_mqtt" sample_config (init Z))
    as [Hpop _].
  exact (Hpop 0x12ab34 eq_refl).
Defined.

Lemma retrigger_cancels_first_timer_witness :
  let twice :=
    exec Z (_device_on_event Z sample_config sample_door Trigger)
      (exec Z (advance Z 5)
         (exec Z (_device_on_event Z sample_config sample_door Trigger)
            (init Z))) in
  run_timer Z sample_config 0 (exec Z (advance Z 100) twice)
  = (exec Z (advance Z 100) twice, Ok tt).
Proof.
  intros twice.
  destruct (retrigger_cancels_first_timer Z sample_config sample_door
              {| dc_topic := Some "lifesos/door"; dc_ha_name := Some "Door";
                 dc_auto_reset_interval := Some 10 |}
              "l"%char "ifesos/door" 5 100 (init Z) eq_refl eq_refl)
    as [_ Hrun].
  exact Hrun.
Defined.

(** X7 at the sample installation: the remote controller has no entry. *)
Lemma device_without_topic_is_ignored_witness :
  _device_on_event Z sample_config sample_remote Trigger (init Z)
  = (init Z, Ok tt).
Proof.
  destruct (device_without_topic_is_ignored Z sample_flags sample_flags
              sample_flags sample_flags sample_config sample_remote (init Z))
    as [Hevent _].
  - intros dc Hdc. discriminate Hdc.
  - apply Hevent.
Defined.

(** X9 at the sample door: the attribute name battery has no branch. *)
Lemma unlisted_device_property_witness :
  _publish_device_property Z sample_flags sample_flags sample_flags
    sample_flags "lifesos/door" sample_door "battery" (VInt 3) (init Z)
  = (init Z, Ok tt).
Proof.
  apply unlisted_device_property.
  unfold device_property_names. simpl.
  intros H. repeat (destruct H as [H|H]; [discriminate H|]). exact H.
Defined.

(** X11 at the sample door, which is no special device: a current reading
    is not published. *)
Lemma device_topic_attributes_witness :
  _publish_device_property Z sample_flags sample_flags sample_flags
    sample_flags "lifesos/door" sample_door "current_reading" (VInt 21)
    (init Z)
  = (init Z, Ok tt).
Proof.
  destruct (device_topic_attributes Z sample_flags sample_flags sample_flags
              sample_flags "lifesos/door" sample_door (VInt 21) (init Z))
    as [_ Hregular].
  exact (Hregular eq_refl).
Defined.
